(** * A product catalogue over SQLite: [dao.py]

    The module keeps one table, [products], in a single-file SQLite
    database.  Every public function opens its own connection through the
    context manager [get_connection], runs one statement, and lets the
    context manager commit and close.

    The embedding is shallow.  The file system, the connection objects and
    the storage fault the environment may raise form an explicit [world];
    Python code is written in a state-and-exception monad over it.  SQL
    statements are the pure functions [sql_*] on a database value, in the
    order SQLite processes a statement: prepare (the table must exist),
    bind (Python integers must fit 64 bits), step (constraints).

    The values of a product are taken at the types of their columns, or
    [None]: text for [name] and [description], a binary64 float for
    [cost], an integer for [qty].  Identifiers and quantities passed as
    arguments are Python integers, which have no bound.

    The module is taken as the only user of its files: no other
    connection or process holds a lock on a database. *)

From Stdlib Require Import ZArith Floats.SpecFloat.
From stdpp Require Import base option list gmap strings sorting.

Local Open Scope string_scope.
Local Open Scope list_scope.
Local Open Scope Z_scope.

(** ** Python exceptions and results *)

Inductive exn :=
| KeyError | TypeError | ValueError | OverflowError
| IntegrityError | OperationalError | ProgrammingError.

Inductive result (A : Type) :=
| Ok (a : A)
| Raise (e : exn).
Arguments Ok {A} a.
Arguments Raise {A} e.

(** ** Values *)

(** A Python float is an IEEE binary64 number; [real z] is the literal
    written [z.0] in the source. *)
Definition real (z : Z) : spec_float := binary_normalize 53 1024 z 0 false.

(** SQLite integers are signed 64-bit. *)
Definition min_rowid : Z := - 2 ^ 63.
Definition max_rowid : Z := 2 ^ 63 - 1.
Definition int64 (z : Z) : bool := (min_rowid <=? z) && (z <=? max_rowid).

(** The objects a fetched row can carry. *)
Inductive pyobj :=
| PyNone
| PyInt (z : Z)
| PyFloat (f : spec_float)
| PyStr (s : string).

(** A product as a dict with the keys [name], [description], [cost] and
    [qty], each at the type of its column; [None] is Python's [None] (SQL
    NULL).  The same record is the payload of a stored row. *)
Record product := Product {
  name : option string;
  description : option string;
  cost : option spec_float;
  qty : option Z
}.

(** What a statement on [products] works with: the rows by [id], and the
    largest id ever assigned, which AUTOINCREMENT keeps as the row of
    [products] in the table [sqlite_sequence]. *)
Record table := Table {
  rows : gmap Z product;
  sqlite_sequence : Z
}.

(** A database file holds tables by name.  The module creates two: the
    table [products], and through AUTOINCREMENT SQLite's own table
    [sqlite_sequence], which maps a table name to its sequence value. *)
Inductive relation :=
| Rows (r : gmap Z product)
| Seqs (s : gmap string Z).

Abbreviation database := (gmap string relation).

Global Instance exn_eq_dec : EqDecision exn.
Proof. solve_decision. Defined.
Global Instance spec_float_eq_dec : EqDecision spec_float.
Proof. solve_decision. Defined.
Global Instance product_eq_dec : EqDecision product.
Proof. solve_decision. Defined.
Global Instance table_eq_dec : EqDecision table.
Proof. solve_decision. Defined.
Global Instance relation_eq_dec : EqDecision relation.
Proof. solve_decision. Defined.

(** ** The world *)

(** A connection object: the file it was opened on, whether it is still
    open, its view of the database including uncommitted changes, and
    whether [row_factory] was set to [sqlite3.Row]. *)
Record connection := Connection {
  c_path : string;
  c_open : bool;
  c_db : database;
  c_row_factory : bool
}.

(** [files] is the file system restricted to database files, [conns] the
    connection objects created so far (a handle is an index into it), and
    [disk_full] the storage fault of the environment: when it holds, the
    disk has no room for a COMMIT to write its changes, and a COMMIT that
    has changes to write raises [OperationalError]. *)
Record world := World {
  files : gmap string database;
  conns : list connection;
  disk_full : bool
}.

(** ** The monad of Python code *)

Definition M (A : Type) : Type := world -> result A * world.

Definition ret {A} (a : A) : M A := fun w => (Ok a, w).
Definition bind {A B} (m : M A) (k : A -> M B) : M B :=
  fun w => match m w with
           | (Ok a, w1) => k a w1
           | (Raise e, w1) => (Raise e, w1)
           end.

Notation "'let*' x ':=' m 'in' k" := (bind m (fun x => k))
  (at level 10, x name, m at level 100, k at level 200).

(** [try: body finally: fin].  The finaliser runs on every exit of the
    body; if the finaliser itself raises, that exception replaces the
    outcome of the body. *)
Definition try_finally {A} (body : M A) (fin : M unit) : M A :=
  fun w => match body w with
           | (r, w1) => match fin w1 with
                        | (Ok _, w2) => (r, w2)
                        | (Raise e, w2) => (Raise e, w2)
                        end
           end.

Definition lift {A} (r : result A) : M A := fun w => (r, w).

(** Pure results. *)
Definition rbind {A B} (r : result A) (k : A -> result B) : result B :=
  match r with Ok a => k a | Raise e => Raise e end.

Fixpoint rmap {A B} (f : A -> result B) (l : list A) : result (list B) :=
  match l with
  | [] => Ok []
  | x :: l' => rbind (f x) (fun y => rbind (rmap f l') (fun ys => Ok (y :: ys)))
  end.

(** ** SQL statements on a database value *)

(** The schema of [create_tables]:
    [id INTEGER PRIMARY KEY AUTOINCREMENT], [name TEXT NOT NULL],
    [description TEXT NOT NULL], [cost REAL NOT NULL],
    [qty INTEGER DEFAULT 0]. *)

(** The sequence rows of a database, and the value recorded for
    [products]: none recorded counts as 0. *)
Definition seqs_of (db : database) : gmap string Z :=
  match db !! "sqlite_sequence" with
  | Some (Seqs s) => s
  | _ => ∅
  end.

Definition seq_value (db : database) : Z := default 0 (seqs_of db !! "products").

(** The table [products] as the statements see it. *)
Definition view (db : database) : option table :=
  match db !! "products" with
  | Some (Rows r) => Some (Table r (seq_value db))
  | _ => None
  end.

(** Prepare: every statement of the module names the table [products]. *)
Definition prepare (db : database) : result table :=
  match view db with
  | Some t => Ok t
  | None => Raise OperationalError
  end.

(** Bind: a Python [int] is accepted when it fits a SQLite integer.  A
    NaN float is bound as NULL, and a REAL column gives a negative zero
    back as [0.0]: [bind_real] is the value later read from the column. *)
Definition bind_int (z : Z) : result Z :=
  if int64 z then Ok z else Raise OverflowError.

Definition bind_opt_int (q : option Z) : result (option Z) :=
  match q with
  | None => Ok None
  | Some z => rbind (bind_int z) (fun z' => Ok (Some z'))
  end.

Definition bind_real (c : option spec_float) : option spec_float :=
  match c with
  | Some S754_nan => None
  | Some (S754_zero _) => Some (S754_zero false)
  | _ => c
  end.

(** The parameter tuple [(product['name'], product['description'],
    product['cost'], product['qty'])]. *)
Definition bind_product (p : product) : result product :=
  rbind (bind_opt_int (qty p)) (fun q =>
  Ok (Product (name p) (description p) (bind_real (cost p)) q)).

(** The NOT NULL constraints of the schema. *)
Definition not_null (p : product) : bool :=
  bool_decide (is_Some (name p)) && bool_decide (is_Some (description p))
  && bool_decide (is_Some (cost p)).

(** AUTOINCREMENT: the new id is one more than the largest id ever
    assigned and than every id in the table; none is left after
    [max_rowid]. *)
Definition max_key (m : gmap Z product) : Z :=
  map_fold (fun k _ acc => Z.max k acc) 0 m.

Definition last_rowid (t : table) : Z := Z.max (max_key (rows t)) (sqlite_sequence t).
Definition next_rowid (t : table) : Z := last_rowid t + 1.

(** Writing the rows of [products], which is all an UPDATE or a DELETE
    writes, and writing the rows together with the sequence value, as an
    INSERT does. *)
Definition with_rows (r : gmap Z product) (db : database) : database :=
  <["products" := Rows r]> db.

Definition with_products (t : table) (db : database) : database :=
  <["sqlite_sequence" :=
      Seqs (<["products" := sqlite_sequence t]> (seqs_of db))]>
    (with_rows (rows t) db).

(** [CREATE TABLE IF NOT EXISTS products (...)]: with the first
    AUTOINCREMENT table SQLite also creates [sqlite_sequence]. *)
Definition sql_create (db : database) : result database :=
  match db !! "products" with
  | Some _ => Ok db
  | None =>
      Ok (with_rows ∅
            (match db !! "sqlite_sequence" with
             | Some _ => db
             | None => <["sqlite_sequence" := Seqs ∅]> db
             end))
  end.

(** [INSERT INTO products (name, description, cost, qty) VALUES (?, ?, ?, ?)] *)
Definition sql_insert (p : product) (db : database) : result database :=
  rbind (prepare db) (fun t =>
  rbind (bind_product p) (fun v =>
  if max_rowid <=? last_rowid t then Raise OperationalError
  else if not_null v
       then Ok (with_products
                  (Table (<[next_rowid t := v]> (rows t)) (next_rowid t)) db)
       else Raise IntegrityError)).

(** [SELECT * FROM products]: the rows in rowid order. *)
Definition by_rowid (a b : Z * product) : Prop := a.1 <= b.1.
Global Instance by_rowid_dec a b : Decision (by_rowid a b).
Proof. unfold by_rowid. apply _. Defined.

Definition sql_select_all (db : database) : result (list (Z * product)) :=
  rbind (prepare db) (fun t => Ok (merge_sort by_rowid (map_to_list (rows t)))).

(** [SELECT * FROM products WHERE id = ?] followed by [fetchone()]. *)
Definition sql_select_one (product_id : Z) (db : database)
  : result (option (Z * product)) :=
  rbind (prepare db) (fun t =>
  rbind (bind_int product_id) (fun i =>
  Ok (pair i <$> rows t !! i))).

(** [UPDATE products SET qty = ? WHERE id = ?] *)
Definition set_qty (q : Z) (p : product) : product :=
  Product (name p) (description p) (cost p) (Some q).

Definition sql_update_qty (q product_id : Z) (db : database) : result database :=
  rbind (prepare db) (fun t =>
  rbind (bind_int q) (fun q' =>
  rbind (bind_int product_id) (fun i =>
  Ok (with_rows (alter (set_qty q') i (rows t)) db)))).

(** [DELETE FROM products WHERE id = ?] *)
Definition sql_delete (product_id : Z) (db : database) : result database :=
  rbind (prepare db) (fun t =>
  rbind (bind_int product_id) (fun i =>
  Ok (with_rows (delete i (rows t)) db))).

(** [UPDATE products SET name = ?, description = ?, cost = ?, qty = ?
    WHERE id = ?]; the constraints are checked on the rows it matches. *)
Definition sql_update (p : product) (product_id : Z) (db : database)
  : result database :=
  rbind (prepare db) (fun t =>
  rbind (bind_product p) (fun v =>
  rbind (bind_int product_id) (fun i =>
  match rows t !! i with
  | None => Ok db
  | Some _ =>
      if not_null v
      then Ok (with_rows (<[i := v]> (rows t)) db)
      else Raise IntegrityError
  end))).

(** ** Connections *)

Definition os_path_exists (path : string) : M bool :=
  fun w => (Ok (bool_decide (is_Some (files w !! path))), w).

(** [sqlite3.connect(path)] opens the file, creating an empty database
    when there is none, and returns a new connection object.  A path is
    the name of a file in a directory that exists and can be written. *)
Definition sqlite3_connect (path : string) : M nat :=
  fun w =>
    let db := default ∅ (files w !! path) in
    (Ok (length (conns w)),
     World (<[path := db]> (files w))
           (conns w ++ [Connection path true db false])
           (disk_full w)).

(** A method call on connection [h]; a closed connection refuses it. *)
Definition on_conn {A} (h : nat) (f : connection -> result A * connection)
  : M A :=
  fun w =>
    match conns w !! h with
    | Some c =>
        if c_open c
        then match f c with
             | (r, c') =>
                 (r, World (files w) (<[h := c']> (conns w)) (disk_full w))
             end
        else (Raise ProgrammingError, w)
    | None => (Raise ProgrammingError, w)
    end.

Definition set_db (db : database) (c : connection) : connection :=
  Connection (c_path c) (c_open c) db (c_row_factory c).

(** [conn.execute(...)] of a statement that writes. *)
Definition execute (h : nat) (stmt : database -> result database) : M unit :=
  on_conn h (fun c =>
    match stmt (c_db c) with
    | Ok db' => (Ok tt, set_db db' c)
    | Raise e => (Raise e, c)
    end).

(** [conn.executemany(...)]: one execution per parameter tuple; the rows
    inserted before a failing tuple stay in the transaction. *)
Fixpoint executemany (h : nat) (stmt : product -> database -> result database)
    (params : list product) : M unit :=
  match params with
  | [] => ret tt
  | p :: ps => let* _ := execute h (stmt p) in executemany h stmt ps
  end.

(** [conn.row_factory = sqlite3.Row] *)
Definition set_row_factory (h : nat) : M unit :=
  on_conn h (fun c =>
    (Ok tt, Connection (c_path c) (c_open c) (c_db c) true)).

(** [conn.commit()]: writes the changes of the connection to its file.
    With nothing to write it succeeds; with changes and a full disk it
    raises. *)
Definition conn_commit (h : nat) : M unit :=
  fun w =>
    match conns w !! h with
    | Some c =>
        if c_open c
        then if bool_decide (files w !! c_path c = Some (c_db c))
             then (Ok tt, w)
             else if disk_full w
                  then (Raise OperationalError, w)
                  else (Ok tt,
                        World (<[c_path c := c_db c]> (files w)) (conns w)
                              (disk_full w))
        else (Raise ProgrammingError, w)
    | None => (Raise ProgrammingError, w)
    end.

(** [conn.close()] *)
Definition conn_close (h : nat) : M unit :=
  fun w =>
    match conns w !! h with
    | Some c =>
        (Ok tt,
         World (files w)
               (<[h := Connection (c_path c) false (c_db c) (c_row_factory c)]>
                  (conns w))
               (disk_full w))
    | None => (Ok tt, w)
    end.

(** ** Python values of fetched rows *)

(** A fetched row is a plain tuple unless the connection's [row_factory]
    is [sqlite3.Row]. *)
Inductive fetched :=
| AsTuple (r : Z * product)
| AsRow (r : Z * product).

Definition fetch (c : connection) (r : Z * product) : fetched :=
  if c_row_factory c then AsRow r else AsTuple r.

(** [cursor.execute('SELECT * FROM products')] and [fetchall()] *)
Definition fetchall (h : nat) : M (list fetched) :=
  on_conn h (fun c =>
    (rbind (sql_select_all (c_db c)) (fun rs => Ok (fetch c <$> rs)), c)).

(** [cursor.execute('SELECT * FROM products WHERE id = ?', ...)] and
    [fetchone()] *)
Definition fetchone (h : nat) (product_id : Z) : M (option fetched) :=
  on_conn h (fun c =>
    (rbind (sql_select_one product_id (c_db c)) (fun r => Ok (fetch c <$> r)),
     c)).

Definition opt_obj {A} (f : A -> pyobj) (o : option A) : pyobj :=
  match o with Some a => f a | None => PyNone end.

(** The five items [(id, name, description, cost, qty)] of a row. *)
Definition row_items (r : Z * product) : list pyobj :=
  [PyInt r.1; opt_obj PyStr (name r.2); opt_obj PyStr (description r.2);
   opt_obj PyFloat (cost r.2); opt_obj PyInt (qty r.2)].

Definition columns : list string := ["id"; "name"; "description"; "cost"; "qty"].

(** [dict(iterable)]: every item must itself be an iterable of two
    elements.  Among the objects of a row only a string of two characters
    is one; a number or [None] is not iterable. *)
Fixpoint dict_of_items (items : list pyobj) (d : gmap string pyobj)
  : result (gmap string pyobj) :=
  match items with
  | [] => Ok d
  | PyStr (String a (String b EmptyString)) :: rest =>
      dict_of_items rest
        (<[String a EmptyString := PyStr (String b EmptyString)]> d)
  | PyStr _ :: _ => Raise ValueError
  | _ :: _ => Raise TypeError
  end.

(** [dict(row)]: a [sqlite3.Row] is a mapping from column names; a tuple
    is taken as an iterable of pairs. *)
Definition dict (row : fetched) : result (gmap string pyobj) :=
  match row with
  | AsRow r => Ok (list_to_map (zip columns (row_items r)))
  | AsTuple r => dict_of_items (row_items r) ∅
  end.

(** [x[k]] on a dict *)
Definition getitem (k : string) (x : gmap string pyobj) : result pyobj :=
  match x !! k with
  | Some v => Ok v
  | None => Raise KeyError
  end.

(** [a < b]: strings by code point, numbers by value, anything else is a
    [TypeError]. *)
Definition cmp_int_float (x : Z) (f : spec_float) : option comparison :=
  match f with
  | S754_nan => None
  | S754_infinity s => Some (if s then Gt else Lt)
  | S754_zero _ => Some (x ?= 0)
  | S754_finite s m e =>
      let v := if s then Z.neg m else Z.pos m in
      Some (if 0 <=? e then x ?= v * 2 ^ e else x * 2 ^ (- e) ?= v)
  end.

Definition py_lt (a b : pyobj) : result bool :=
  match a, b with
  | PyStr s, PyStr t => Ok (String.ltb s t)
  | PyInt x, PyInt y => Ok (x <? y)
  | PyFloat f, PyFloat g => Ok (SFltb f g)
  | PyInt x, PyFloat g => Ok (bool_decide (cmp_int_float x g = Some Lt))
  | PyFloat f, PyInt y => Ok (bool_decide (cmp_int_float y f = Some Gt))
  | _, _ => Raise TypeError
  end.

(** [sorted(l, key=key)]: the keys are computed first; the sort is stable
    and uses [<] only. *)
Section Sorted.
Context {A : Type}.

Fixpoint insert_keyed (x : pyobj * A) (l : list (pyobj * A))
  : result (list (pyobj * A)) :=
  match l with
  | [] => Ok [x]
  | y :: l' =>
      rbind (py_lt y.1 x.1) (fun b =>
      if b then rbind (insert_keyed x l') (fun r => Ok (y :: r))
      else Ok (x :: y :: l'))
  end.

Fixpoint sort_keyed (l : list (pyobj * A)) : result (list (pyobj * A)) :=
  match l with
  | [] => Ok []
  | x :: l' => rbind (sort_keyed l') (insert_keyed x)
  end.

Definition sorted (key : A -> result pyobj) (l : list A) : result (list A) :=
  rbind (rmap (fun x => rbind (key x) (fun k => Ok (k, x))) l) (fun kl =>
  rbind (sort_keyed kl) (fun s => Ok (snd <$> s))).
End Sorted.

(** ** The functions of [dao.py] *)

(** [get_connection]: connect, hand the connection to the body of the
    [with] block, and in the [finally] clause commit and then close. *)
Definition get_connection {A} (path : string) (body : nat -> M A) : M A :=
  let* conn := sqlite3_connect path in
  try_finally (body conn)
              (let* _ := conn_commit conn in conn_close conn).

(** The literal list of [insert_initial_data]. *)
Definition products : list product :=
  let row n d c q := Product (Some n) (Some d) (Some (real c)) (Some q) in
  [ row "Backpack" "A durable and stylish backpack for daily use." 800 10;
    row "Wireless Mouse" "A sleek and ergonomic wireless mouse with a long battery life." 800 20;
    row "Bluetooth Speaker" "A portable Bluetooth speaker with high-quality sound and deep bass." 3000 30;
    row "Laptop Stand" "An adjustable laptop stand for better posture and cooling." 250 15;
    row "Notebook" "A premium notebook with thick, high-quality paper." 50 50;
    row "Smartphone Case" "A durable and stylish case for protecting your smartphone." 150 25;
    row "Power Bank" "A high-capacity power bank with fast charging support." 900 20;
    row "Headphones" "Over-ear headphones with noise cancellation and deep bass." 5000 10;
    row "Gaming Keyboard" "A mechanical gaming keyboard with RGB lighting." 3000 10;
    row "USB-C Hub" "A multi-port USB-C hub for all your connectivity needs." 400 25;
    row "Fitness Tracker" "A sleek fitness tracker with heart rate monitoring." 1000 20;
    row "Travel Mug" "An insulated travel mug that keeps your drinks hot or cold." 500 30;
    row "Desk Organizer" "A compact desk organizer for keeping your workspace tidy." 1200 40;
    row "External Hard Drive" "A portable external hard drive with 1TB of storage." 800 15;
    row "Wireless Charger" "A fast wireless charger compatible with most devices." 2500 30;
    row "Digital Camera" "A compact digital camera with 4K video recording." 20000 5;
    row "Electric Kettle" "A fast-boiling electric kettle with auto shut-off." 3000 20;
    row "Smart Watch" "A stylish smartwatch with fitness and notification features." 12000 10;
    row "LED Desk Lamp" "A modern LED desk lamp with adjustable brightness." 2000 35;
    row "Portable Projector" "A mini portable projector with HD resolution." 15000 8 ].

Definition insert_initial_data (conn : nat) : M unit :=
  executemany conn sql_insert products.

Definition create_tables (conn : nat) : M unit :=
  let* _ := execute conn sql_create in
  insert_initial_data conn.

(** [connect]: the [return conn] comes after the [with] block, so after
    the commit and the close of [get_connection]. *)
Definition connect (path : string) : M nat :=
  let* exists_ := os_path_exists path in
  get_connection path (fun conn =>
    let* _ := (if negb exists_ then create_tables conn else ret tt) in
    let* _ := set_row_factory conn in
    ret conn).

Definition list_products : M (list (gmap string pyobj)) :=
  get_connection "products.db" (fun conn =>
    let* rows_ := fetchall conn in
    let* products := lift (rmap dict rows_) in
    lift (sorted (getitem "name") products)).

Definition add_product (product : product) : M unit :=
  get_connection "products.db" (fun conn => execute conn (sql_insert product)).

Definition get_product (product_id : Z) : M (option fetched) :=
  get_connection "products.db" (fun conn => fetchone conn product_id).

Definition update_qty (product_id qty : Z) : M unit :=
  get_connection "products.db" (fun conn =>
    execute conn (sql_update_qty qty product_id)).

Definition delete_product (product_id : Z) : M unit :=
  get_connection "products.db" (fun conn =>
    execute conn (sql_delete product_id)).

Definition update_product (product_id : Z) (product : product) : M unit :=
  get_connection "products.db" (fun conn =>
    execute conn (sql_update product product_id)).

(** ** Runs of the module *)

(** The table of the store: the module's functions work on
    ['products.db'] whatever path [connect] was given. *)
Definition store (w : world) : option table :=
  files w !! "products.db" ≫= view.

(** The mutating operations a client can call, and a run of them. *)
Inductive op :=
| Add (product : product)
| Update (product_id : Z) (product : product)
| UpdateQty (product_id qty : Z)
| Delete (product_id : Z).

Definition run_op (w : world) (o : op) : world :=
  match o with
  | Add p => (add_product p w).2
  | Update i p => (update_product i p w).2
  | UpdateQty i q => (update_qty i q w).2
  | Delete i => (delete_product i w).2
  end.

Definition run_ops (w : world) (ops : list op) : world := foldl run_op w ops.

(** The store right after [connect('products.db')] on a path with no
    file. *)
Definition initialize (w : world) : world := (connect "products.db" w).2.

(** The seeded table: the twenty literal products under the ids 1 to 20. *)
Definition seeded : table :=
  Table (list_to_map (zip (seqZ 1 20) products)) 20.

Definition seeded_db : database :=
  <["sqlite_sequence" := Seqs {["products" := 20]}]>
    {["products" := Rows (rows seeded)]}.

(** What the specification's data model asks of a product. *)
Definition valid_product (p : product) : bool :=
  match name p, cost p, qty p with
  | Some n, Some c, Some q =>
      negb (String.eqb n "") && SFleb (S754_zero false) c && (0 <=? q)
  | _, _, _ => false
  end.

(** What the schema and the binding enforce on a stored row. *)
Definition qty_fits (p : product) : bool :=
  match qty p with Some q => int64 q | None => true end.

Definition stored_ok (p : product) : bool :=
  not_null p && bool_decide (cost p ≠ Some S754_nan) && qty_fits p.

(** The invariant of a table that only this module has written: every id
    is positive and at most the recorded sequence value, and every row
    passed the binding and the constraints. *)
Definition table_inv (t : table) : Prop :=
  map_Forall (fun k p => 0 < k <= sqlite_sequence t /\ stored_ok p = true)
             (rows t).

Definition all_closed (w : world) : Prop :=
  Forall (fun c => c_open c = false) (conns w).

Global Instance table_inv_dec t : Decision (table_inv t).
Proof. unfold table_inv. apply _. Defined.

(** What a [with get_connection(path)] block leaves behind.

    [release] is the outcome of the [finally] clause for a body that
    returned or raised [r] and left the connection with the database
    [db'] and the row factory [rf]. *)
Definition release {A} (path : string) (r : result A) (db' : database)
    (rf : bool) (w : world) : result A * world :=
  let db0 := default ∅ (files w !! path) in
  let fs := <[path := db0]> (files w) in
  if bool_decide (db0 = db')
  then (r, World fs (conns w ++ [Connection path false db' rf]) (disk_full w))
  else if disk_full w
       then (Raise OperationalError,
             World fs (conns w ++ [Connection path true db' rf]) (disk_full w))
       else (r, World (<[path := db']> (files w))
                      (conns w ++ [Connection path false db' rf]) (disk_full w)).

(** [executemany] on the newest connection, as a fold over the database
    of that connection. *)
Fixpoint insert_many (ps : list product) (db : database)
  : result unit * database :=
  match ps with
  | [] => (Ok tt, db)
  | p :: ps' =>
      match sql_insert p db with
      | Ok db' => insert_many ps' db'
      | Raise e => (Raise e, db)
      end
  end.

(** A world whose store has been initialised on an empty file system. *)
Definition fresh_store : world := initialize (World ∅ [] false).

(** What a statement that writes may do to the table. *)
Definition table_step (t t' : table) : Prop :=
  sqlite_sequence t <= sqlite_sequence t' /\ (table_inv t -> table_inv t').

Definition writes (stmt : database -> result database) : Prop :=
  forall db db' t,
    view db = Some t -> stmt db = Ok db' ->
    exists t', view db' = Some t' /\ table_step t t'.

(** A mutating operation as the call it stands for. *)
Definition call (o : op) : M unit :=
  match o with
  | Add p => add_product p
  | Update i p => update_product i p
  | UpdateQty i q => update_qty i q
  | Delete i => delete_product i
  end.

(** A statement that leaves alone every table but [products] and
    [sqlite_sequence]. *)
Definition keeps_tables (stmt : database -> result database) : Prop :=
  forall db db' n,
    stmt db = Ok db' -> n ≠ "products" -> n ≠ "sqlite_sequence" ->
    db' !! n = db !! n.

(** The value a row has once its parameters are bound. *)
Definition bound (p : product) : product :=
  Product (name p) (description p) (bind_real (cost p)) (qty p).

(** Two costs that Python's [==] finds equal: [-0.0 == 0.0] holds, and
    NaN equals nothing. *)
Definition same_cost (a b : option spec_float) : bool :=
  match a, b with
  | Some x, Some y => SFeqb x y
  | None, None => true
  | _, _ => false
  end.

(** The statement a mutating operation executes. *)
Definition stmt_of (o : op) : database -> result database :=
  match o with
  | Add p => sql_insert p
  | Update i p => sql_update p i
  | UpdateQty i q => sql_update_qty q i
  | Delete i => sql_delete i
  end.

(** Two tables with the same identifiers and the same id sequence. *)
Definition same_ids (t t' : table) : Prop :=
  dom (rows t') = dom (rows t) /\ sqlite_sequence t' = sqlite_sequence t.

(** * Properties *)

(** ** The newest connection object *)

Section LastConnection.
Variables (l : list connection) (fs : gmap string database) (d : bool).

Lemma lookup_last (c : connection) : (l ++ [c]) !! length l = Some c.
Proof. by apply list_lookup_middle. Qed.

Lemma insert_last (c c' : connection) :
  <[length l := c']> (l ++ [c]) = l ++ [c'].
Proof.
  rewrite insert_app_r_alt by lia.
  by replace (length l - length l)%nat with 0%nat by lia.
Qed.

Lemma on_conn_last {A} (f : connection -> result A * connection) c :
  c_open c = true ->
  on_conn (length l) f (World fs (l ++ [c]) d)
  = ((f c).1, World fs (l ++ [(f c).2]) d).
Proof.
  intros Hc. unfold on_conn. cbn [conns files disk_full].
  rewrite lookup_last, Hc. destruct (f c) as [r c'].
  by rewrite insert_last.
Qed.

Lemma conn_close_last c :
  conn_close (length l) (World fs (l ++ [c]) d)
  = (Ok tt,
     World fs (l ++ [Connection (c_path c) false (c_db c) (c_row_factory c)]) d).
Proof.
  unfold conn_close. cbn [conns files disk_full].
  by rewrite lookup_last, insert_last.
Qed.

Lemma conn_commit_last c :
  c_open c = true ->
  conn_commit (length l) (World fs (l ++ [c]) d)
  = if bool_decide (fs !! c_path c = Some (c_db c))
    then (Ok tt, World fs (l ++ [c]) d)
    else if d then (Raise OperationalError, World fs (l ++ [c]) d)
         else (Ok tt, World (<[c_path c := c_db c]> fs) (l ++ [c]) d).
Proof.
  intros Hc. unfold conn_commit. cbn [conns files disk_full].
  by rewrite lookup_last, Hc.
Qed.
End LastConnection.

Lemma finally_last {A} path (r : result A) db' rf w :
  try_finally (fun w1 => (r, w1))
    (let* _ := conn_commit (length (conns w)) in conn_close (length (conns w)))
    (World (<[path := default ∅ (files w !! path)]> (files w))
           (conns w ++ [Connection path true db' rf]) (disk_full w))
  = release path r db' rf w.
Proof.
  unfold try_finally, bind, release.
  rewrite conn_commit_last by done. cbn [c_path c_db].
  rewrite lookup_insert_eq.
  destruct (decide (default ∅ (files w !! path) = db')) as [->|Hne].
  - rewrite !bool_decide_eq_true_2 by done.
    by rewrite conn_close_last.
  - rewrite !bool_decide_eq_false_2 by congruence.
    destruct (disk_full w); [done|].
    rewrite conn_close_last. cbn [c_path c_db c_row_factory].
    by rewrite insert_insert_eq.
Qed.

Lemma get_connection_on_conn {A} path
    (f : connection -> result A * connection) w r db' rf :
  f (Connection path true (default ∅ (files w !! path)) false)
  = (r, Connection path true db' rf) ->
  get_connection path (fun conn => on_conn conn f) w = release path r db' rf w.
Proof.
  intros Hf. unfold get_connection, bind at 1, sqlite3_connect.
  rewrite <- finally_last. unfold try_finally.
  rewrite on_conn_last by done. by rewrite Hf.
Qed.

Lemma get_connection_then {A B} path
    (f : connection -> result A * connection) (k : A -> M B)
    (g : A -> result B) w r db' rf :
  f (Connection path true (default ∅ (files w !! path)) false)
  = (r, Connection path true db' rf) ->
  (forall x w1, k x w1 = (g x, w1)) ->
  get_connection path (fun conn => let* x := on_conn conn f in k x) w
  = release path (rbind r g) db' rf w.
Proof.
  intros Hf Hk. unfold get_connection, bind at 1, sqlite3_connect.
  rewrite <- finally_last. unfold try_finally, bind at 1.
  rewrite on_conn_last by done. rewrite Hf. cbn [fst snd].
  destruct r as [x|e]; cbn [rbind]; [by rewrite Hk | done].
Qed.

Lemma with_execute path stmt w :
  get_connection path (fun conn => execute conn stmt) w
  = match stmt (default ∅ (files w !! path)) with
    | Ok db' => release path (Ok tt) db' false w
    | Raise e => release path (Raise e) (default ∅ (files w !! path)) false w
    end.
Proof.
  unfold execute.
  destruct (stmt (default ∅ (files w !! path))) as [db'|e] eqn:Hs;
    apply get_connection_on_conn; cbn [c_db]; by rewrite Hs.
Qed.

Lemma get_product_eq product_id w :
  get_product product_id w
  = release "products.db"
      (rbind (sql_select_one product_id (default ∅ (files w !! "products.db")))
             (fun r => Ok (AsTuple <$> r)))
      (default ∅ (files w !! "products.db")) false w.
Proof. unfold get_product, fetchone. by apply get_connection_on_conn. Qed.

Lemma list_products_eq w :
  list_products w
  = release "products.db"
      (rbind (rbind (sql_select_all (default ∅ (files w !! "products.db")))
                    (fun rs => Ok (AsTuple <$> rs)))
             (fun rows_ => rbind (rmap dict rows_) (sorted (getitem "name"))))
      (default ∅ (files w !! "products.db")) false w.
Proof.
  unfold list_products, fetchall. apply get_connection_then; [done|].
  intros x w1. unfold bind, lift. by destruct (rmap dict x).
Qed.

(** When there is nothing to write, or the disk has room, the block ends
    with the outcome of its body, the changes in the file and the
    connection closed. *)
Lemma release_done {A} path (r : result A) db' rf w :
  disk_full w = false \/ default ∅ (files w !! path) = db' ->
  release path r db' rf w
  = (r, World (<[path := db']> (files w))
              (conns w ++ [Connection path false db' rf]) (disk_full w)).
Proof.
  intros H. unfold release. case_bool_decide as Hd; [by rewrite Hd|].
  destruct H as [->|]; done.
Qed.

(** With changes to write and a full disk, the commit raises and the
    close is never reached. *)
Lemma release_leak {A} path (r : result A) db' rf w :
  disk_full w = true -> default ∅ (files w !! path) ≠ db' ->
  release path r db' rf w
  = (Raise OperationalError,
     World (<[path := default ∅ (files w !! path)]> (files w))
           (conns w ++ [Connection path true db' rf]) (disk_full w)).
Proof.
  intros Hd Hne. unfold release.
  by rewrite bool_decide_eq_false_2, Hd.
Qed.

(** ** The store *)

Lemma store_Some w t :
  store w = Some t <->
  exists db, files w !! "products.db" = Some db /\ view db = Some t.
Proof.
  unfold store. destruct (files w !! "products.db") as [db|]; cbn.
  - split; [eauto | by intros (? & [= <-] & ?)].
  - split; [done | by intros (? & ? & ?)].
Qed.

Ltac open_store H :=
  let db := fresh "db" in
  let Hf := fresh "Hfile" in
  let Ht := fresh "Htable" in
  apply store_Some in H as (db & Hf & Ht).

Lemma store_written fs l d db :
  store (World (<["products.db" := db]> fs) l d) = view db.
Proof. unfold store. cbn [files]. by rewrite lookup_insert_eq. Qed.

Lemma seq_value_with_rows r db : seq_value (with_rows r db) = seq_value db.
Proof.
  unfold seq_value, seqs_of, with_rows. by rewrite lookup_insert_ne.
Qed.

Lemma view_rows db t : view db = Some t -> db !! "products" = Some (Rows (rows t)).
Proof.
  unfold view. destruct (db !! "products") as [[r|s]|]; [|done..].
  by intros [= <-].
Qed.

Lemma view_seq db t : view db = Some t -> seq_value db = sqlite_sequence t.
Proof.
  unfold view. destruct (db !! "products") as [[r|s]|]; [|done..].
  by intros [= <-].
Qed.

Lemma view_with_rows r db t :
  view db = Some t -> view (with_rows r db) = Some (Table r (sqlite_sequence t)).
Proof.
  intros Hv. unfold view. rewrite seq_value_with_rows, (view_seq _ _ Hv).
  unfold with_rows. by rewrite lookup_insert_eq.
Qed.

Lemma with_rows_id db t : view db = Some t -> with_rows (rows t) db = db.
Proof. intros Hv. apply insert_id. by apply view_rows. Qed.

Lemma with_products_lookup t db : view (with_products t db) = Some t.
Proof.
  unfold view, with_products, with_rows, seq_value, seqs_of.
  rewrite (lookup_insert_ne _ "sqlite_sequence" "products") by done.
  rewrite !lookup_insert_eq. by destruct t.
Qed.

Lemma seqs_of_with_products t db :
  seqs_of (with_products t db)
  = <["products" := sqlite_sequence t]> (seqs_of db).
Proof. unfold seqs_of at 1, with_products. by rewrite lookup_insert_eq. Qed.

Lemma with_products_again t t' db :
  with_products t' (with_products t db) = with_products t' db.
Proof.
  unfold with_products at 1. rewrite seqs_of_with_products, insert_insert_eq.
  unfold with_products, with_rows. apply map_eq. intros k.
  destruct (decide (k = "sqlite_sequence")) as [->|Hs];
    [by rewrite !lookup_insert_eq|].
  rewrite !(lookup_insert_ne _ "sqlite_sequence" k) by done.
  destruct (decide (k = "products")) as [->|Hp];
    [by rewrite !lookup_insert_eq|].
  rewrite !(lookup_insert_ne _ "products" k) by done.
  rewrite (lookup_insert_ne _ "sqlite_sequence" k) by done.
  by rewrite (lookup_insert_ne _ "products" k).
Qed.

Lemma table_eta t : Table (rows t) (sqlite_sequence t) = t.
Proof. by destruct t. Qed.

Lemma bind_int_ok z : int64 z = true -> bind_int z = Ok z.
Proof. unfold bind_int. by intros ->. Qed.

Lemma bind_int_overflow z : int64 z = false -> bind_int z = Raise OverflowError.
Proof. unfold bind_int. by intros ->. Qed.

(** ** delete *)

Lemma delete_product_eq product_id w db t :
  files w !! "products.db" = Some db -> view db = Some t ->
  int64 product_id = true ->
  delete_product product_id w
  = release "products.db" (Ok tt)
      (with_rows (delete product_id (rows t)) db) false w.
Proof.
  intros Hf Ht Hi. unfold delete_product. rewrite with_execute, Hf.
  cbn [default from_option id]. unfold sql_delete, prepare. rewrite Ht. cbn [rbind].
  by rewrite bind_int_ok.
Qed.

Lemma get_product_store product_id fs l d db t :
  view db = Some t -> int64 product_id = true ->
  get_product product_id (World (<["products.db" := db]> fs) l d)
  = (Ok (AsTuple <$> (pair product_id <$> rows t !! product_id)),
     World (<["products.db" := db]> fs)
           (l ++ [Connection "products.db" false db false]) d).
Proof.
  intros Ht Hi. rewrite get_product_eq. cbn [files].
  rewrite lookup_insert_eq. cbn [default from_option id].
  rewrite release_done by (right; cbn [files]; by rewrite lookup_insert_eq).
  cbn [files conns disk_full]. rewrite insert_insert_eq.
  unfold sql_select_one, prepare. rewrite Ht. cbn [rbind].
  by rewrite bind_int_ok.
Qed.

(** C5, as stated, fails: an identifier that is not a 64-bit integer is
    refused when it is bound, so both [delete_product] and the
    [get_product] after it raise [OverflowError]. *)
Lemma delete_then_get_overflow :
  (delete_product (2 ^ 63) fresh_store).1 = Raise OverflowError
  /\ (get_product (2 ^ 63) (delete_product (2 ^ 63) fresh_store).2).1
     = Raise OverflowError.
Proof. split; vm_compute; reflexivity. Qed.

(** C5, amended: in every store state and for every identifier within
    SQLite's signed 64-bit range, [delete_product] returns normally, a
    [get_product] of the same identifier then returns [None], and the
    table is the former one without that identifier: the row is removed
    when there is one, and nothing changes when there is none. *)
Theorem delete_then_get w t product_id :
  store w = Some t -> disk_full w = false -> int64 product_id = true ->
  exists w' w'',
    delete_product product_id w = (Ok tt, w')
    /\ get_product product_id w' = (Ok None, w'')
    /\ store w'
       = Some (Table (delete product_id (rows t)) (sqlite_sequence t))
    /\ (rows t !! product_id = None -> store w' = Some t).
Proof.
  intros Hs Hd Hi. open_store Hs.
  rewrite (delete_product_eq _ _ _ _ Hfile Htable Hi).
  rewrite release_done by by left.
  eexists _, _. split; [reflexivity|].
  rewrite (get_product_store _ _ _ _ _ _ (view_with_rows _ _ _ Htable) Hi).
  cbn [rows]. rewrite lookup_delete_eq. split; [reflexivity|].
  rewrite store_written, (view_with_rows _ _ _ Htable). split; [done|].
  intros Hn. by rewrite delete_id, table_eta.
Qed.

Lemma delete_then_get_witness :
  exists w' w'',
    delete_product 3 fresh_store = (Ok tt, w')
    /\ get_product 3 w' = (Ok None, w'')
    /\ store w' = Some (Table (delete 3 (rows seeded)) (sqlite_sequence seeded))
    /\ (rows seeded !! 3 = None -> store w' = Some seeded).
Proof.
  apply (delete_then_get fresh_store seeded 3); vm_compute; reflexivity.
Defined.

(** ** Identifiers that match no row *)

Lemma bind_product_ok p :
  qty_fits p = true ->
  bind_product p
  = Ok (Product (name p) (description p) (bind_real (cost p)) (qty p)).
Proof.
  unfold bind_product, qty_fits, bind_opt_int.
  destruct (qty p) as [q|]; [|done]. intros Hq. by rewrite bind_int_ok.
Qed.

Lemma unchanged_done {A} (r : result A) w db :
  files w !! "products.db" = Some db ->
  release "products.db" r db false w
  = (r, World (files w) (conns w ++ [Connection "products.db" false db false])
              (disk_full w)).
Proof.
  intros Hf. rewrite release_done by (right; by rewrite Hf).
  by rewrite insert_id.
Qed.

(** An integer that SQLite cannot hold is refused when it is bound,
    whatever the table contains. *)
Lemma out_of_range_id_raises w t product_id :
  store w = Some t -> int64 product_id = false ->
  (get_product product_id w).1 = Raise OverflowError
  /\ (delete_product product_id w).1 = Raise OverflowError
  /\ store (delete_product product_id w).2 = Some t.
Proof.
  intros Hs Hi. open_store Hs. rewrite get_product_eq.
  unfold delete_product. rewrite with_execute, Hfile.
  cbn [default from_option id]. unfold sql_select_one, sql_delete, prepare.
  rewrite Htable. cbn [rbind]. rewrite bind_int_overflow by done.
  cbn [rbind]. rewrite !(unchanged_done _ _ _ Hfile). cbn [fst snd].
  unfold store. cbn [files]. by rewrite Hfile.
Qed.


(** C6, as stated, fails: [2 ^ 63] matches no row of the seeded table,
    yet [get_product] raises instead of returning [None], and so do the
    three mutations. *)
Lemma missing_id_overflow :
  rows seeded !! (2 ^ 63) = None
  /\ store fresh_store = Some seeded
  /\ (get_product (2 ^ 63) fresh_store).1 = Raise OverflowError
  /\ (update_qty (2 ^ 63) 5 fresh_store).1 = Raise OverflowError
  /\ (delete_product (2 ^ 63) fresh_store).1 = Raise OverflowError.
Proof. repeat split; vm_compute; reflexivity. Qed.

(** C6, amended: for every identifier within SQLite's signed 64-bit range
    that matches no row, [get_product] returns [None], and
    [update_product] (with a quantity that is [None] or fits 64 bits),
    [update_qty] (with a quantity that fits 64 bits) and
    [delete_product] return normally and leave every database file as it
    was: no row is created and none is changed. *)
Theorem missing_id_noop w t product_id :
  store w = Some t -> rows t !! product_id = None ->
  int64 product_id = true ->
  (exists w', get_product product_id w = (Ok None, w') /\ files w' = files w)
  /\ (forall p, qty_fits p = true ->
        exists w', update_product product_id p w = (Ok tt, w')
                   /\ files w' = files w)
  /\ (forall q, int64 q = true ->
        exists w', update_qty product_id q w = (Ok tt, w')
                   /\ files w' = files w)
  /\ (exists w', delete_product product_id w = (Ok tt, w')
                 /\ files w' = files w).
Proof.
  intros Hs Hn Hi. open_store Hs. repeat split.
  - rewrite get_product_eq, Hfile. cbn [default from_option id].
    rewrite (unchanged_done _ _ _ Hfile).
    unfold sql_select_one, prepare. rewrite Htable. cbn [rbind].
    rewrite bind_int_ok by done. cbn [rbind]. rewrite Hn. cbn. eauto.
  - intros p Hp. unfold update_product. rewrite with_execute, Hfile.
    cbn [default from_option id]. unfold sql_update, prepare.
    rewrite Htable. cbn [rbind]. rewrite bind_product_ok by done.
    cbn [rbind]. rewrite bind_int_ok by done. cbn [rbind]. rewrite Hn.
    rewrite (unchanged_done _ _ _ Hfile). eauto.
  - intros q Hq. unfold update_qty. rewrite with_execute, Hfile.
    cbn [default from_option id]. unfold sql_update_qty, prepare.
    rewrite Htable. cbn [rbind]. rewrite !bind_int_ok by done.
    cbn [rbind]. rewrite alter_id by (intros ?; congruence).
    rewrite (with_rows_id _ _ Htable).
    rewrite (unchanged_done _ _ _ Hfile). eauto.
  - rewrite (delete_product_eq _ _ _ _ Hfile Htable Hi).
    rewrite delete_id by done.
    rewrite (with_rows_id _ _ Htable).
    rewrite (unchanged_done _ _ _ Hfile). eauto.
Qed.

Lemma missing_id_noop_witness :
  (exists w', get_product 999 fresh_store = (Ok None, w')
              /\ files w' = files fresh_store)
  /\ (forall p, qty_fits p = true ->
        exists w', update_product 999 p fresh_store = (Ok tt, w')
                   /\ files w' = files fresh_store)
  /\ (forall q, int64 q = true ->
        exists w', update_qty 999 q fresh_store = (Ok tt, w')
                   /\ files w' = files fresh_store)
  /\ (exists w', delete_product 999 fresh_store = (Ok tt, w')
                 /\ files w' = files fresh_store).
Proof.
  apply (missing_id_noop fresh_store seeded 999); vm_compute; reflexivity.
Defined.

(** ** update_qty *)

(** C4, as stated, fails: a quantity that is not a 64-bit integer is
    refused when it is bound; [update_qty] raises [OverflowError] and the
    row keeps its quantity. *)
Lemma update_qty_overflow :
  (update_qty 1 (2 ^ 63) fresh_store).1 = Raise OverflowError
  /\ (get_product 1 (update_qty 1 (2 ^ 63) fresh_store).2).1
     = Ok (Some (AsTuple
         (1, Product (Some "Backpack")
               (Some "A durable and stylish backpack for daily use.")
               (Some (real 800)) (Some 10)))).
Proof. split; vm_compute; reflexivity. Qed.

(** C4, amended: for every identifier present in the table and every
    quantity within SQLite's signed 64-bit range, [update_qty] returns
    normally and [get_product] then returns the row with that quantity
    and its identifier, name, description and cost as before; every other
    row is unchanged. *)
Theorem update_qty_then_get w t product_id p q :
  store w = Some t -> disk_full w = false ->
  rows t !! product_id = Some p ->
  int64 product_id = true -> int64 q = true ->
  exists w' w'' t',
    update_qty product_id q w = (Ok tt, w')
    /\ get_product product_id w'
       = (Ok (Some (AsTuple
            (product_id, Product (name p) (description p) (cost p) (Some q)))),
          w'')
    /\ store w' = Some t'
    /\ (forall k, k ≠ product_id -> rows t' !! k = rows t !! k)
    /\ sqlite_sequence t' = sqlite_sequence t.
Proof.
  intros Hs Hd Hp Hi Hq. open_store Hs.
  unfold update_qty. rewrite with_execute, Hfile.
  cbn [default from_option id]. unfold sql_update_qty, prepare.
  rewrite Htable. cbn [rbind]. rewrite !bind_int_ok by done. cbn [rbind].
  rewrite release_done by by left.
  eexists _, _, _. split; [reflexivity|].
  rewrite (get_product_store _ _ _ _ _ _ (view_with_rows _ _ _ Htable) Hi).
  cbn [rows]. rewrite lookup_alter_eq, Hp. split; [reflexivity|].
  rewrite store_written, (view_with_rows _ _ _ Htable). split; [reflexivity|].
  cbn [rows sqlite_sequence]. split; [|done].
  intros k Hk. by rewrite lookup_alter_ne.
Qed.

Lemma update_qty_then_get_witness :
  exists w' w'' t',
    update_qty 1 5 fresh_store = (Ok tt, w')
    /\ get_product 1 w'
       = (Ok (Some (AsTuple
            (1, Product (Some "Backpack")
                  (Some "A durable and stylish backpack for daily use.")
                  (Some (real 800)) (Some 5)))),
          w'')
    /\ store w' = Some t'
    /\ (forall k, k ≠ 1 -> rows t' !! k = rows seeded !! k)
    /\ sqlite_sequence t' = sqlite_sequence seeded.
Proof.
  apply (update_qty_then_get fresh_store seeded 1
           (Product (Some "Backpack")
              (Some "A durable and stylish backpack for daily use.")
              (Some (real 800)) (Some 10)) 5);
    vm_compute; reflexivity.
Defined.

(** ** connect *)

Lemma set_db_same c : set_db (c_db c) c = c.
Proof. by destruct c. Qed.

Lemma executemany_last l fs d ps : forall c,
  c_open c = true ->
  executemany (length l) sql_insert ps (World fs (l ++ [c]) d)
  = ((insert_many ps (c_db c)).1,
     World fs (l ++ [set_db (insert_many ps (c_db c)).2 c]) d).
Proof.
  induction ps as [|p ps IH]; intros c Hc; cbn [executemany insert_many].
  - cbn [fst snd]. by rewrite set_db_same.
  - unfold bind, execute. rewrite on_conn_last by done.
    destruct (sql_insert p (c_db c)) as [db'|e]; cbn [fst snd].
    + rewrite IH by done. by destruct c.
    + by rewrite set_db_same.
Qed.

Lemma seeding :
  insert_many products (with_rows ∅ (<["sqlite_sequence" := Seqs ∅]> ∅))
  = (Ok tt, seeded_db).
Proof. vm_compute. reflexivity. Qed.

Lemma seeded_db_nonempty : (∅ : database) ≠ seeded_db.
Proof. intros H. by apply (f_equal (.!! "products")) in H. Qed.

Lemma connect_fresh_eq path w :
  files w !! path = None ->
  connect path w = release path (Ok (length (conns w))) seeded_db true w.
Proof.
  intros Hf. unfold connect, bind at 1, os_path_exists. rewrite Hf.
  rewrite bool_decide_eq_false_2 by (by intros [? ?]). cbn [negb].
  unfold get_connection, bind at 1, sqlite3_connect.
  rewrite <- finally_last. rewrite Hf. cbn [default from_option id].
  unfold try_finally. f_equal.
  unfold bind at 1, create_tables, bind at 1, execute.
  rewrite on_conn_last by done. cbn [c_db fst snd].
  unfold sql_create. rewrite !lookup_empty. cbn [fst snd].
  unfold insert_initial_data. rewrite executemany_last by done.
  cbn [set_db c_db c_path c_open c_row_factory]. rewrite seeding.
  cbn [fst snd]. unfold bind, set_row_factory.
  by rewrite on_conn_last.
Qed.

Lemma connect_existing_eq path w db :
  files w !! path = Some db ->
  connect path w
  = (Ok (length (conns w)),
     World (files w) (conns w ++ [Connection path false db true])
           (disk_full w)).
Proof.
  intros Hf. unfold connect, bind at 1, os_path_exists. rewrite Hf.
  rewrite bool_decide_eq_true_2 by eauto. cbn [negb].
  unfold get_connection, bind at 1, sqlite3_connect.
  transitivity (release path (Ok (length (conns w))) db true w).
  - rewrite <- finally_last. rewrite Hf. cbn [default from_option id].
    unfold try_finally. f_equal.
    unfold bind, ret, set_row_factory. by rewrite on_conn_last.
  - rewrite release_done by (right; by rewrite Hf). by rewrite insert_id.
Qed.

Lemma connect_fresh_done path w :
  files w !! path = None -> disk_full w = false ->
  connect path w
  = (Ok (length (conns w)),
     World (<[path := seeded_db]> (files w))
           (conns w ++ [Connection path false seeded_db true]) false).
Proof.
  intros Hf Hd. rewrite connect_fresh_eq, release_done by auto.
  by rewrite Hd.
Qed.

(** C2, as stated, fails: the file [connect] leaves on a path that had
    none holds two tables, not one.  Beside [products] there is
    [sqlite_sequence], which SQLite creates for the AUTOINCREMENT id and
    which records 20 for [products] after the seeding. *)
Lemma connect_creates_two_tables :
  exists db,
    files (connect "products.db" (World ∅ [] false)).2 !! "products.db"
    = Some db
    /\ size db = 2%nat
    /\ db !! "sqlite_sequence" = Some (Seqs {["products" := 20]}).
Proof.
  exists seeded_db. split; [|split]; vm_compute; reflexivity.
Qed.

(** C2, amended: on a path with no database file, and with storage that
    does not fail, [connect] returns and leaves at that path a database
    with exactly two tables: [products], whose rows are the twenty
    literal products of [insert_initial_data], each once, under the ids 1
    to 20, and SQLite's [sqlite_sequence], which records 20 for
    [products]; no other file is touched. *)
Theorem connect_fresh path w :
  files w !! path = None -> disk_full w = false ->
  exists h w',
    connect path w = (Ok h, w')
    /\ files w' !! path
       = Some (<["sqlite_sequence" := Seqs {["products" := 20]}]>
                 {["products" := Rows (rows seeded)]})
    /\ sql_select_all seeded_db = Ok (zip (seqZ 1 20) products)
    /\ length products = 20%nat
    /\ (forall q, q ≠ path -> files w' !! q = files w !! q).
Proof.
  intros Hf Hd. rewrite connect_fresh_done by done.
  eexists _, _. split; [reflexivity|]. cbn [files].
  split; [by rewrite lookup_insert_eq|].
  split; [vm_compute; reflexivity|]. split; [reflexivity|].
  intros q Hq. by rewrite lookup_insert_ne.
Qed.

Lemma connect_fresh_witness :
  exists h w',
    connect "products.db" (World ∅ [] false) = (Ok h, w')
    /\ files w' !! "products.db"
       = Some (<["sqlite_sequence" := Seqs {["products" := 20]}]>
                 {["products" := Rows (rows seeded)]})
    /\ sql_select_all seeded_db = Ok (zip (seqZ 1 20) products)
    /\ length products = 20%nat
    /\ (forall q, q ≠ "products.db" ->
          files w' !! q = files (World ∅ [] false) !! q).
Proof.
  apply (connect_fresh "products.db" (World ∅ [] false)); reflexivity.
Defined.

(** C7: a second [connect] on the same path inserts nothing.  After two
    calls on a path that had no file, the second call has left every file
    as the first one made it, and the table holds the twenty seed rows
    once. *)
Theorem connect_twice path w :
  files w !! path = None -> disk_full w = false ->
  exists h1 w1 h2 w2,
    connect path w = (Ok h1, w1)
    /\ connect path w1 = (Ok h2, w2)
    /\ files w2 = files w1
    /\ files w2 !! path = Some seeded_db
    /\ sql_select_all seeded_db
       = Ok (zip (seqZ 1 20) products).
Proof.
  intros Hf Hd. rewrite connect_fresh_done by done.
  eexists _, _. eexists _, _. split; [reflexivity|].
  split.
  { apply connect_existing_eq. cbn [files]. apply lookup_insert_eq. }
  cbn [files]. split; [done|]. split; [apply lookup_insert_eq|].
  vm_compute; reflexivity.
Qed.

Lemma connect_twice_witness :
  exists h1 w1 h2 w2,
    connect "products.db" (World ∅ [] false) = (Ok h1, w1)
    /\ connect "products.db" w1 = (Ok h2, w2)
    /\ files w2 = files w1
    /\ files w2 !! "products.db" = Some seeded_db
    /\ sql_select_all seeded_db
       = Ok (zip (seqZ 1 20) products).
Proof.
  apply (connect_twice "products.db" (World ∅ [] false)); reflexivity.
Defined.

(** C9 does not hold of the code: whenever [connect] returns a handle,
    the connection behind it has already been closed by the [finally]
    clause of [get_connection], and the first use of it raises
    [ProgrammingError]. *)
Theorem connect_handle_closed path w h w' :
  connect path w = (Ok h, w') ->
  exists c,
    conns w' !! h = Some c /\ c_open c = false
    /\ (fetchall h w').1 = Raise ProgrammingError.
Proof.
  intros Hc.
  assert (exists db rf, h = length (conns w)
            /\ conns w' = conns w ++ [Connection path false db rf])
    as (db & rf & -> & Hw).
  { destruct (files w !! path) as [db|] eqn:Hf.
    - rewrite (connect_existing_eq _ _ _ Hf) in Hc.
      injection Hc as <- <-. eauto.
    - rewrite (connect_fresh_eq _ _ Hf) in Hc. unfold release in Hc.
      rewrite Hf in Hc. cbn [default from_option id] in Hc.
      rewrite bool_decide_eq_false_2 in Hc by apply seeded_db_nonempty.
      destruct (disk_full w); [done|]. injection Hc as <- <-. eauto. }
  eexists. unfold fetchall, on_conn. rewrite Hw, lookup_last. done.
Qed.

Lemma connect_handle_closed_witness :
  exists c,
    conns fresh_store !! 0%nat = Some c /\ c_open c = false
    /\ (fetchall 0 fresh_store).1 = Raise ProgrammingError.
Proof.
  apply (connect_handle_closed "products.db" (World ∅ [] false) 0%nat
           fresh_store).
  vm_compute. reflexivity.
Defined.

(** ** Release of the connection *)

Lemma release_closed {A} path (r : result A) db' rf w :
  disk_full w = false \/ default ∅ (files w !! path) = db' ->
  all_closed w -> all_closed (release path r db' rf w).2.
Proof.
  intros H Hw. rewrite release_done by done. unfold all_closed.
  cbn [snd conns]. apply Forall_app. split; [done|]. by constructor.
Qed.

(** A statement that raises leaves nothing to commit: the connection is
    closed and the exception of the statement is what the caller sees. *)
Lemma statement_error_closes path stmt w e :
  stmt (default ∅ (files w !! path)) = Raise e ->
  all_closed w ->
  (get_connection path (fun conn => execute conn stmt) w).1 = Raise e
  /\ all_closed (get_connection path (fun conn => execute conn stmt) w).2.
Proof.
  intros Hs Hw. rewrite with_execute, Hs. split.
  - by rewrite release_done by by right.
  - apply release_closed; auto.
Qed.

(** With storage that does not fail, a statement that succeeds is
    committed and the connection closed. *)
Lemma statement_closes path stmt w :
  disk_full w = false -> all_closed w ->
  all_closed (get_connection path (fun conn => execute conn stmt) w).2.
Proof.
  intros Hd Hw. rewrite with_execute.
  destruct (stmt _); apply release_closed; auto.
Qed.

(** The two queries never have anything to commit. *)
Lemma queries_close w product_id :
  all_closed w ->
  all_closed (get_product product_id w).2 /\ all_closed (list_products w).2.
Proof.
  intros Hw. rewrite get_product_eq, list_products_eq.
  split; apply release_closed; auto.
Qed.

(** C10 does not hold of the code: when the commit in the [finally]
    clause raises, here because the disk is full and the deletion has
    changes to write, [conn.close()] is never reached.  The caller gets
    [OperationalError] and the connection the call opened stays open. *)
Theorem commit_failure_leaks w t product_id p :
  store w = Some t -> rows t !! product_id = Some p ->
  int64 product_id = true -> disk_full w = true ->
  exists w' c,
    delete_product product_id w = (Raise OperationalError, w')
    /\ conns w' !! length (conns w) = Some c /\ c_open c = true.
Proof.
  intros Hs Hp Hi Hd. open_store Hs.
  rewrite (delete_product_eq _ _ _ _ Hfile Htable Hi).
  rewrite release_leak; [| done |].
  - eexists _, _. split; [reflexivity|]. cbn [conns].
    by rewrite lookup_last.
  - rewrite Hfile. cbn [default from_option id]. intros Heq.
    apply (f_equal view) in Heq.
    rewrite (view_with_rows _ _ _ Htable), Htable in Heq.
    injection Heq as Heq.
    apply (f_equal (fun t' => rows t' !! product_id)) in Heq.
    cbn [rows] in Heq. by rewrite lookup_delete_eq, Hp in Heq.
Qed.

Lemma commit_failure_leaks_witness :
  exists w' c,
    delete_product 1 (World (files fresh_store) [] true)
    = (Raise OperationalError, w')
    /\ conns w' !! length (conns (World (files fresh_store) [] true)) = Some c
    /\ c_open c = true.
Proof.
  apply (commit_failure_leaks (World (files fresh_store) [] true) seeded 1
           (Product (Some "Backpack")
              (Some "A durable and stylish backpack for daily use.")
              (Some (real 800)) (Some 10)));
    vm_compute; reflexivity.
Defined.

(** ** list_products *)

Lemma dict_tuple_raises r : dict (AsTuple r) = Raise TypeError.
Proof. reflexivity. Qed.

(** With [sqlite3.Row] as row factory the conversion succeeds and the
    sort key is the name of the row. *)
Lemma dict_row_name r :
  rbind (dict (AsRow r)) (getitem "name") = Ok (opt_obj PyStr (name r.2)).
Proof. reflexivity. Qed.

Lemma select_all_nil db t :
  view db = Some t ->
  (sql_select_all db = Ok [] <-> rows t = ∅).
Proof.
  intros Ht. unfold sql_select_all, prepare. rewrite Ht. cbn [rbind].
  rewrite <- map_to_list_empty_iff. split.
  - intros [= Hm]. apply Permutation_nil_r.
    rewrite <- Hm. symmetry. apply merge_sort_Permutation.
  - by intros ->.
Qed.

(** [sorted] at work on rows converted under [sqlite3.Row]. *)
Example sorted_by_name :
  rbind (rbind (rmap dict (AsRow <$> zip (seqZ 1 4) (take 4 products)))
               (sorted (getitem "name")))
        (rmap (getitem "id"))
  = Ok [PyInt 1; PyInt 3; PyInt 4; PyInt 2].
Proof. vm_compute. reflexivity. Qed.

(** On an empty table [list_products] returns the empty list. *)
Lemma list_products_empty w t :
  store w = Some t -> rows t = ∅ -> (list_products w).1 = Ok [].
Proof.
  intros Hs He. open_store Hs. rewrite list_products_eq, Hfile.
  cbn [default from_option id]. rewrite (unchanged_done _ _ _ Hfile).
  apply (select_all_nil _ _ Htable) in He. by rewrite He.
Qed.

(** C3 does not hold of the code: the connection [list_products] opens
    has no row factory, so every fetched row is a tuple whose first item
    is the integer id, and [dict(row)] raises [TypeError] on the first
    row.  The sort is never reached on a table that has a row. *)
Theorem list_products_raises w t k p :
  store w = Some t -> rows t !! k = Some p ->
  (list_products w).1 = Raise TypeError.
Proof.
  intros Hs Hp. open_store Hs. rewrite list_products_eq, Hfile.
  cbn [default from_option id]. rewrite (unchanged_done _ _ _ Hfile).
  cbn [fst]. destruct (sql_select_all db) as [[|r rs]|e] eqn:Hq.
  - apply (select_all_nil _ _ Htable) in Hq.
    by rewrite Hq, lookup_empty in Hp.
  - reflexivity.
  - unfold sql_select_all, prepare in Hq. by rewrite Htable in Hq.
Qed.

Lemma list_products_raises_witness :
  (list_products fresh_store).1 = Raise TypeError.
Proof.
  apply (list_products_raises fresh_store seeded 1
           (Product (Some "Backpack")
              (Some "A durable and stylish backpack for daily use.")
              (Some (real 800)) (Some 10)));
    vm_compute; reflexivity.
Defined.

(** ** Identifiers and rows along a run *)

Lemma max_key_spec (m : gmap Z product) :
  0 <= max_key m /\ forall k p, m !! k = Some p -> k <= max_key m.
Proof.
  unfold max_key.
  apply (map_fold_weak_ind
           (fun r m => 0 <= r /\ forall k p, m !! k = Some p -> k <= r)).
  - split; [done|]. intros k p. by rewrite lookup_empty.
  - intros i x m' r _ [H0 IH]. split; [lia|]. intros k p.
    destruct (decide (i = k)) as [->|Hne].
    + lia.
    + rewrite lookup_insert_ne by done. intros Hk%IH. lia.
Qed.

Lemma next_rowid_fresh t : rows t !! next_rowid t = None.
Proof.
  destruct (rows t !! next_rowid t) as [p|] eqn:Hp; [|done].
  apply max_key_spec in Hp. unfold next_rowid, last_rowid in Hp. lia.
Qed.

Lemma next_rowid_bounds t :
  sqlite_sequence t < next_rowid t /\ 0 < next_rowid t.
Proof.
  unfold next_rowid, last_rowid.
  pose proof (max_key_spec (rows t)) as [H0 _]. lia.
Qed.

Lemma bind_real_not_nan c : bind_real c ≠ Some S754_nan.
Proof. by destruct c as [[]|]. Qed.


Lemma SFeqb_refl x : x ≠ S754_nan -> SFeqb x x = true.
Proof.
  destruct x as [s|s| |s m e]; [done| by destruct s |done|].
  intros _. unfold SFeqb, SFcompare.
  rewrite Z.compare_refl, Pos.compare_cont_refl. by destruct s.
Qed.

Lemma bind_real_same c :
  c ≠ Some S754_nan -> same_cost (bind_real c) c = true.
Proof.
  destruct c as [x|]; [|done]. intros Hx.
  destruct x as [s|s| |s m e]; [done| | done |]; apply SFeqb_refl; done.
Qed.

(** A row that was bound and passed the constraints is [stored_ok]. *)
Lemma bound_stored_ok p v :
  bind_product p = Ok v -> not_null v = true -> stored_ok v = true.
Proof.
  unfold bind_product, bind_opt_int, stored_ok, qty_fits.
  destruct (qty p) as [q|]; cbn [rbind].
  - unfold bind_int. destruct (int64 q) eqn:Hq; [|done]. cbn [rbind].
    intros [= <-] ->. cbn [cost qty]. rewrite Hq.
    rewrite bool_decide_eq_true_2 by apply bind_real_not_nan. done.
  - intros [= <-] ->. cbn [cost qty].
    rewrite bool_decide_eq_true_2 by apply bind_real_not_nan. done.
Qed.

Lemma stored_ok_bound p :
  stored_ok p = true ->
  bind_product p = Ok (bound p) /\ not_null (bound p) = true
  /\ stored_ok (bound p) = true /\ same_cost (cost (bound p)) (cost p) = true.
Proof.
  intros Hp. pose proof Hp as Hp'. unfold stored_ok in Hp'.
  apply andb_prop in Hp' as [[Hn Hc%bool_decide_eq_true]%andb_prop Hq].
  assert (bind_product p = Ok (bound p)) as Hb by by apply bind_product_ok.
  assert (not_null (bound p) = true) as Hn'.
  { revert Hn Hc. unfold not_null, bound. cbn [name description cost].
    by destruct (cost p) as [[]|]. }
  split; [done|]. split; [done|]. split; [by eapply bound_stored_ok|].
  by apply bind_real_same.
Qed.


Lemma table_step_refl t : table_step t t.
Proof. by split. Qed.

Lemma table_step_trans t1 t2 t3 :
  table_step t1 t2 -> table_step t2 t3 -> table_step t1 t3.
Proof. intros [? ?] [? ?]. split; [lia | auto]. Qed.

Lemma sql_insert_writes p : writes (sql_insert p).
Proof.
  intros db db' t Ht. unfold sql_insert, prepare. rewrite Ht. cbn [rbind].
  destruct (bind_product p) as [v|e] eqn:Hb; [|done]. cbn [rbind].
  case_match; [done|]. destruct (not_null v) eqn:Hv; [|done].
  intros [= <-]. eexists. split; [apply with_products_lookup|].
  pose proof (next_rowid_bounds t) as [Hlt Hpos].
  split; unfold table_inv, map_Forall; cbn [sqlite_sequence rows]; [lia|].
  intros Hinv k x. destruct (decide (next_rowid t = k)) as [<-|Hne].
  - rewrite lookup_insert_eq. intros [= <-].
    split; [lia | by eapply bound_stored_ok].
  - rewrite lookup_insert_ne by done. intros [Hk Hx]%Hinv. split; [lia|done].
Qed.

Lemma sql_update_writes p i : writes (sql_update p i).
Proof.
  intros db db' t Ht. unfold sql_update, prepare. rewrite Ht. cbn [rbind].
  destruct (bind_product p) as [v|e] eqn:Hb; [|done]. cbn [rbind].
  destruct (bind_int i) as [j|e]; [|done]. cbn [rbind].
  destruct (rows t !! j) as [old|] eqn:Hj.
  - destruct (not_null v) eqn:Hv; [|done]. intros [= <-].
    eexists. split; [by apply view_with_rows|].
    split; unfold table_inv, map_Forall; cbn [sqlite_sequence rows]; [lia|].
    intros Hinv k x. destruct (decide (j = k)) as [<-|Hne].
    + rewrite lookup_insert_eq. intros [= <-].
      split; [by apply (Hinv _ _ Hj) | by eapply bound_stored_ok].
    + rewrite lookup_insert_ne by done. apply Hinv.
  - intros [= <-]. eauto using table_step_refl.
Qed.

Lemma sql_update_qty_writes q i : writes (sql_update_qty q i).
Proof.
  intros db db' t Ht. unfold sql_update_qty, prepare. rewrite Ht.
  cbn [rbind]. unfold bind_int at 1.
  destruct (int64 q) eqn:Hq; [|done]. cbn [rbind].
  destruct (bind_int i) as [j|e]; [|done]. cbn [rbind]. intros [= <-].
  eexists. split; [by apply view_with_rows|].
  split; unfold table_inv, map_Forall; cbn [sqlite_sequence rows]; [lia|].
  intros Hinv k x. destruct (decide (j = k)) as [<-|Hne].
  - rewrite lookup_alter_eq. destruct (rows t !! j) as [old|] eqn:Hj; [|done].
    intros [= <-]. destruct (Hinv _ _ Hj) as [Hk Hold]. split; [done|].
    revert Hold. unfold stored_ok, qty_fits, not_null. cbn. rewrite Hq.
    intros [-> _]%andb_prop. done.
  - rewrite lookup_alter_ne by done. apply Hinv.
Qed.

Lemma sql_delete_writes i : writes (sql_delete i).
Proof.
  intros db db' t Ht. unfold sql_delete, prepare. rewrite Ht. cbn [rbind].
  destruct (bind_int i) as [j|e]; [|done]. cbn [rbind]. intros [= <-].
  eexists. split; [by apply view_with_rows|].
  split; unfold table_inv, map_Forall; cbn [sqlite_sequence rows]; [lia|].
  intros Hinv k x [_ Hk]%lookup_delete_Some. by apply Hinv.
Qed.

Lemma release_store {A} (r : result A) db' w db t t' :
  files w !! "products.db" = Some db -> view db = Some t ->
  view db' = Some t' -> table_step t t' ->
  exists t'',
    store (release "products.db" r db' false w).2 = Some t''
    /\ table_step t t''
    /\ disk_full (release "products.db" r db' false w).2 = disk_full w.
Proof.
  intros Hf Ht Ht' Hstep. unfold release. rewrite Hf.
  cbn [default from_option id]. case_bool_decide as Heq.
  - subst db'. exists t. cbn [snd]. rewrite store_written.
    eauto using table_step_refl.
  - destruct (disk_full w) eqn:Hd; cbn [snd]; rewrite store_written.
    + exists t. eauto using table_step_refl.
    + exists t'. eauto.
Qed.

Lemma with_execute_store stmt w t :
  writes stmt -> store w = Some t ->
  exists t',
    store (get_connection "products.db"
             (fun conn => execute conn stmt) w).2 = Some t'
    /\ table_step t t'
    /\ disk_full (get_connection "products.db"
                    (fun conn => execute conn stmt) w).2 = disk_full w.
Proof.
  intros Hw Hs. open_store Hs. rewrite with_execute, Hfile.
  cbn [default from_option id].
  destruct (stmt db) as [db'|e] eqn:Hstmt.
  - destruct (Hw _ _ _ Htable Hstmt) as (t' & Ht' & Hstep).
    by eapply release_store.
  - eapply release_store; eauto using table_step_refl.
Qed.

Lemma run_op_store o w t :
  store w = Some t ->
  exists t',
    store (run_op w o) = Some t' /\ table_step t t'
    /\ disk_full (run_op w o) = disk_full w.
Proof.
  intros Hs. destruct o; cbn [run_op];
    unfold add_product, update_product, update_qty, delete_product;
    apply with_execute_store;
    auto using sql_insert_writes, sql_update_writes, sql_update_qty_writes,
      sql_delete_writes.
Qed.

Lemma run_ops_store ops : forall w t,
  store w = Some t ->
  exists t',
    store (run_ops w ops) = Some t' /\ table_step t t'
    /\ disk_full (run_ops w ops) = disk_full w.
Proof.
  induction ops as [|o ops IH]; intros w t Hs; cbn [run_ops foldl].
  - eauto using table_step_refl.
  - destruct (run_op_store o w t Hs) as (t1 & Hs1 & Hstep1 & Hd1).
    destruct (IH _ _ Hs1) as (t2 & Hs2 & Hstep2 & Hd2).
    exists t2. split; [done|]. split; [by eapply table_step_trans|].
    unfold run_ops in Hd2. congruence.
Qed.

Lemma initialize_store w :
  files w !! "products.db" = None -> disk_full w = false ->
  store (initialize w) = Some seeded /\ disk_full (initialize w) = false.
Proof.
  intros Hf Hd. unfold initialize. rewrite connect_fresh_done by done.
  cbn [snd disk_full]. by rewrite store_written.
Qed.

Lemma seeded_inv : table_inv seeded.
Proof. refine (bool_decide_unpack _ _). by vm_compute. Qed.

Lemma seeded_valid :
  map_Forall (fun _ p => valid_product p = true) (rows seeded).
Proof. refine (bool_decide_unpack _ _). by vm_compute. Qed.

(** ** add_product *)

Lemma add_product_eq p w db t :
  files w !! "products.db" = Some db -> view db = Some t ->
  stored_ok p = true -> last_rowid t < max_rowid ->
  add_product p w
  = release "products.db" (Ok tt)
      (with_products
         (Table (<[next_rowid t := bound p]> (rows t)) (next_rowid t)) db)
      false w.
Proof.
  intros Hf Ht Hp Hlast. unfold add_product. rewrite with_execute, Hf.
  cbn [default from_option id]. unfold sql_insert, prepare. rewrite Ht.
  cbn [rbind]. destruct (stored_ok_bound p Hp) as (Hb & Hn & _).
  rewrite Hb. cbn [rbind].
  rewrite (proj2 (Z.leb_gt _ _)) by done. by rewrite Hn.
Qed.




(** ** Rows along a run *)

(** C8, as stated, fails: nothing in the module validates a record.
    After initialisation, [add_product] accepts an empty name, a negative
    cost and a negative quantity, and the row is stored as given. *)
Lemma invalid_row_accepted :
  store (run_ops fresh_store
           [Add (Product (Some "") (Some "") (Some (real (-1))) (Some (-5)))])
    ≫= (fun t => rows t !! 21)
  = Some (Product (Some "") (Some "") (Some (real (-1))) (Some (-5)))
  /\ SFleb (S754_zero false) (real (-1)) = false
  /\ (0 <=? -5) = false
  /\ valid_product (Product (Some "") (Some "") (Some (real (-1))) (Some (-5)))
     = false.
Proof. repeat split; vm_compute; reflexivity. Qed.

(** C8, amended: right after initialisation, with storage that does not
    fail, the table is the seeded one and each of its rows has a
    non-empty name, a non-negative cost and a non-negative integer
    quantity.  In every state reached from there by a run of
    [add_product], [update_product], [update_qty] and [delete_product],
    the table exists and every row has a name, a description and a cost
    that are not NULL, and a quantity that is NULL or a 64-bit integer. *)
Theorem reachable_rows w0 ops :
  files w0 !! "products.db" = None -> disk_full w0 = false ->
  (store (initialize w0) = Some seeded
   /\ map_Forall (fun _ p => valid_product p = true) (rows seeded))
  /\ exists t,
       store (run_ops (initialize w0) ops) = Some t
       /\ map_Forall (fun _ p => stored_ok p = true) (rows t).
Proof.
  intros Hf Hd. destruct (initialize_store w0 Hf Hd) as [Hs0 _].
  split; [split; [done | apply seeded_valid]|].
  destruct (run_ops_store ops _ _ Hs0) as (t & Hs & [_ Hinv] & _).
  exists t. split; [done|].
  intros k p Hk. by apply (Hinv seeded_inv) in Hk as [_ ?].
Qed.

Lemma reachable_rows_witness :
  (store (initialize (World ∅ [] false)) = Some seeded
   /\ map_Forall (fun _ p => valid_product p = true) (rows seeded))
  /\ exists t,
       store (run_ops (initialize (World ∅ [] false))
                [Add (Product (Some "") (Some "") (Some (real (-1)))
                        (Some (-5)));
                 UpdateQty 2 (-7); Delete 1]) = Some t
       /\ map_Forall (fun _ p => stored_ok p = true) (rows t).
Proof.
  apply (reachable_rows (World ∅ [] false)); reflexivity.
Defined.

(** ** Every function releases its connection unless the commit fails *)

Lemma connect_closes path w :
  disk_full w = false -> all_closed w -> all_closed (connect path w).2.
Proof.
  intros Hd Hw. destruct (files w !! path) as [db|] eqn:Hf.
  - rewrite (connect_existing_eq _ _ _ Hf). unfold all_closed.
    cbn [snd conns]. apply Forall_app. split; [done|]. by constructor.
  - rewrite (connect_fresh_eq _ _ Hf). apply release_closed; auto.
Qed.

Lemma functions_close w :
  disk_full w = false -> all_closed w ->
  (forall path, all_closed (connect path w).2)
  /\ all_closed (list_products w).2
  /\ (forall p, all_closed (add_product p w).2)
  /\ (forall i, all_closed (get_product i w).2)
  /\ (forall i q, all_closed (update_qty i q w).2)
  /\ (forall i, all_closed (delete_product i w).2)
  /\ (forall i p, all_closed (update_product i p w).2).
Proof.
  intros Hd Hw.
  repeat split; intros;
    try (by apply connect_closes); try (by apply statement_closes).
  - by apply (queries_close w 0).
  - by apply (queries_close w i).
Qed.

(** * Further properties of the module *)

(** ** Reading *)

Lemma release_same {A} path (r : result A) rf w :
  release path r (default ∅ (files w !! path)) rf w
  = (r, World (<[path := default ∅ (files w !! path)]> (files w))
              (conns w ++
                 [Connection path false (default ∅ (files w !! path)) rf])
              (disk_full w)).
Proof. apply release_done. by right. Qed.

Lemma store_default w :
  view (default ∅ (files w !! "products.db")) = store w.
Proof. unfold store. by destruct (files w !! "products.db"). Qed.

Lemma prepare_store w :
  prepare (default ∅ (files w !! "products.db"))
  = match store w with Some t => Ok t | None => Raise OperationalError end.
Proof. unfold prepare. by rewrite store_default. Qed.

(** X1: [get_product] in full.  Without a [products] table it raises
    [OperationalError]; with one, an identifier that does not fit 64 bits
    raises [OverflowError], and any other identifier gives the row stored
    under it, as a tuple that starts with that identifier, or [None]. *)
Theorem get_product_result w product_id :
  (get_product product_id w).1
  = match store w with
    | None => Raise OperationalError
    | Some t =>
        if int64 product_id
        then Ok (AsTuple <$> (pair product_id <$> rows t !! product_id))
        else Raise OverflowError
    end.
Proof.
  rewrite get_product_eq, release_same. cbn [fst].
  unfold sql_select_one. rewrite prepare_store.
  destruct (store w) as [t|]; [|done]. cbn [rbind]. unfold bind_int.
  by destruct (int64 product_id).
Qed.

(** X2: the two reading functions never change the table, nor any file
    but ['products.db']; and when that file exists they change no file at
    all, whether they return or raise. *)
Theorem queries_keep_store w product_id :
  (store (get_product product_id w).2 = store w
   /\ store (list_products w).2 = store w)
  /\ (forall q, q ≠ "products.db" ->
        files (get_product product_id w).2 !! q = files w !! q
        /\ files (list_products w).2 !! q = files w !! q)
  /\ (forall db, files w !! "products.db" = Some db ->
        files (get_product product_id w).2 = files w
        /\ files (list_products w).2 = files w).
Proof.
  rewrite get_product_eq, list_products_eq, !release_same. cbn [snd].
  split; [|split].
  - by rewrite !store_written, store_default.
  - intros q Hq. cbn [files]. by rewrite lookup_insert_ne.
  - intros db Hdb. cbn [files]. rewrite Hdb. cbn [default from_option id].
    by rewrite insert_id.
Qed.

(** ** Statements that raise *)

Lemma with_execute_raise path stmt w e :
  stmt (default ∅ (files w !! path)) = Raise e ->
  get_connection path (fun conn => execute conn stmt) w
  = (Raise e,
     World (<[path := default ∅ (files w !! path)]> (files w))
           (conns w ++
              [Connection path false (default ∅ (files w !! path)) false])
           (disk_full w)).
Proof. intros Hs. by rewrite with_execute, Hs, release_same. Qed.

(** X3: when the statement of a [with get_connection(path)] block
    raises, the caller sees that very exception, whether the disk has
    room or is full; the connection has been closed, and if the file
    existed no file has changed. *)
Theorem statement_error_propagates path stmt w e :
  stmt (default ∅ (files w !! path)) = Raise e ->
  exists w',
    get_connection path (fun conn => execute conn stmt) w = (Raise e, w')
    /\ conns w'
       = conns w ++ [Connection path false (default ∅ (files w !! path)) false]
    /\ (forall db, files w !! path = Some db -> files w' = files w).
Proof.
  intros Hs. rewrite (with_execute_raise _ _ _ _ Hs).
  eexists. split; [reflexivity|]. split; [reflexivity|].
  intros db Hdb. cbn [files]. rewrite Hdb. cbn [default from_option id].
  by apply insert_id.
Qed.

Lemma statement_error_propagates_witness :
  exists w',
    get_connection "products.db"
      (fun conn => execute conn
         (sql_insert (Product None (Some "Blue ink pen") (Some (real 20))
                        (Some 100))))
      (World (files fresh_store) [] true)
    = (Raise IntegrityError, w')
    /\ conns w'
       = conns (World (files fresh_store) [] true) ++
         [Connection "products.db" false
            (default ∅ (files (World (files fresh_store) [] true)
                          !! "products.db")) false]
    /\ (forall db,
          files (World (files fresh_store) [] true) !! "products.db" = Some db ->
          files w' = files (World (files fresh_store) [] true)).
Proof.
  apply (statement_error_propagates "products.db"
           (sql_insert (Product None (Some "Blue ink pen") (Some (real 20))
                          (Some 100)))
           (World (files fresh_store) [] true) IntegrityError).
  vm_compute. reflexivity.
Defined.

Lemma no_table_raises db :
  view db = None ->
  (forall p, sql_insert p db = Raise OperationalError)
  /\ (forall p i, sql_update p i db = Raise OperationalError)
  /\ (forall q i, sql_update_qty q i db = Raise OperationalError)
  /\ (forall i, sql_delete i db = Raise OperationalError).
Proof.
  intros Hn. unfold sql_insert, sql_update, sql_update_qty, sql_delete, prepare.
  rewrite Hn. by repeat split.
Qed.

Lemma call_eq o w :
  exists stmt,
    call o w = get_connection "products.db" (fun conn => execute conn stmt) w
    /\ (forall db, view db = None -> stmt db = Raise OperationalError).
Proof.
  destruct o; cbn [call]; eexists; (split; [reflexivity|]);
    intros db Hn; by apply no_table_raises.
Qed.

Lemma run_op_call o w : run_op w o = (call o w).2.
Proof. by destruct o. Qed.

(** X4: with no file at ['products.db'], every function of the module
    that works on the table raises [OperationalError] and leaves an empty
    database file behind.  Once that file is there, [connect] on
    ['products.db'] creates no table, so the store stays unusable. *)
Theorem missing_file_no_heal w :
  files w !! "products.db" = None ->
  (forall o, (call o w).1 = Raise OperationalError
             /\ files (call o w).2 !! "products.db" = Some ∅)
  /\ (forall i, (get_product i w).1 = Raise OperationalError
                /\ files (get_product i w).2 !! "products.db" = Some ∅)
  /\ ((list_products w).1 = Raise OperationalError
      /\ files (list_products w).2 !! "products.db" = Some ∅)
  /\ (forall w', files w' !! "products.db" = Some ∅ ->
        (connect "products.db" w').1 = Ok (length (conns w'))
        /\ store (connect "products.db" w').2 = None).
Proof.
  intros Hf. repeat split.
  - destruct (call_eq o w) as (stmt & -> & Hstmt).
    rewrite with_execute_raise with (e := OperationalError); [done|].
    apply Hstmt. by rewrite Hf.
  - destruct (call_eq o w) as (stmt & -> & Hstmt).
    rewrite with_execute_raise with (e := OperationalError).
    + cbn [snd files]. by rewrite lookup_insert_eq, Hf.
    + apply Hstmt. by rewrite Hf.
  - rewrite get_product_result. unfold store. by rewrite Hf.
  - rewrite get_product_eq, release_same. cbn [snd files].
    by rewrite lookup_insert_eq, Hf.
  - rewrite list_products_eq, release_same, Hf. done.
  - rewrite list_products_eq, release_same. cbn [snd files].
    by rewrite lookup_insert_eq, Hf.
  - by rewrite (connect_existing_eq _ _ _ H).
  - rewrite (connect_existing_eq _ _ _ H). cbn [snd]. unfold store.
    cbn [files]. by rewrite H.
Qed.

Lemma missing_file_no_heal_witness :
  (forall o, (call o (World ∅ [] false)).1 = Raise OperationalError
             /\ files (call o (World ∅ [] false)).2 !! "products.db" = Some ∅)
  /\ (forall i, (get_product i (World ∅ [] false)).1 = Raise OperationalError
                /\ files (get_product i (World ∅ [] false)).2 !! "products.db"
                   = Some ∅)
  /\ ((list_products (World ∅ [] false)).1 = Raise OperationalError
      /\ files (list_products (World ∅ [] false)).2 !! "products.db" = Some ∅)
  /\ (forall w', files w' !! "products.db" = Some ∅ ->
        (connect "products.db" w').1 = Ok (length (conns w'))
        /\ store (connect "products.db" w').2 = None).
Proof. apply (missing_file_no_heal (World ∅ [] false)). reflexivity. Defined.

Lemma connect_frame path w q :
  q ≠ path -> files (connect path w).2 !! q = files w !! q.
Proof.
  intros Hq. destruct (files w !! path) as [db|] eqn:Hf.
  - by rewrite (connect_existing_eq _ _ _ Hf).
  - rewrite (connect_fresh_eq _ _ Hf). unfold release.
    repeat case_match; cbn [snd files]; by rewrite lookup_insert_ne.
Qed.

(** X5: [connect] never touches a file other than the one at its path,
    and when a file is already there it changes no file at all and
    returns a new handle, whatever the file contains and whatever the
    state of the storage. *)
Theorem connect_files path w :
  (forall q, q ≠ path -> files (connect path w).2 !! q = files w !! q)
  /\ (forall db, files w !! path = Some db ->
        (connect path w).1 = Ok (length (conns w))
        /\ files (connect path w).2 = files w).
Proof.
  split.
  - intros q Hq. by apply connect_frame.
  - intros db Hf. by rewrite (connect_existing_eq _ _ _ Hf).
Qed.

(** ** What a mutation leaves alone *)

Lemma call_stmt o :
  call o = get_connection "products.db" (fun conn => execute conn (stmt_of o)).
Proof. by destruct o. Qed.

Lemma release_frame {A} path (r : result A) db' rf w q :
  q ≠ path -> files (release path r db' rf w).2 !! q = files w !! q.
Proof.
  intros Hq. unfold release.
  repeat case_match; cbn [snd files]; by rewrite lookup_insert_ne.
Qed.

Lemma release_file {A} path (r : result A) db' rf w :
  files (release path r db' rf w).2 !! path = Some (default ∅ (files w !! path))
  \/ (files (release path r db' rf w).2 !! path = Some db'
      /\ disk_full w = false /\ (release path r db' rf w).1 = r).
Proof.
  unfold release. case_bool_decide as Heq.
  - left. cbn [snd files]. by rewrite lookup_insert_eq.
  - destruct (disk_full w); cbn [snd fst files]; rewrite lookup_insert_eq; auto.
Qed.

Lemma with_rows_other r db n :
  n ≠ "products" -> with_rows r db !! n = db !! n.
Proof. intros Hn. unfold with_rows. by rewrite lookup_insert_ne. Qed.

Lemma with_products_other t db n :
  n ≠ "products" -> n ≠ "sqlite_sequence" -> with_products t db !! n = db !! n.
Proof.
  intros Hn Hs. unfold with_products.
  rewrite lookup_insert_ne by done. by apply with_rows_other.
Qed.

(** What a statement of a mutation writes when it succeeds: nothing, the
    rows of [products], or for an INSERT the rows and the sequence. *)
Lemma stmt_of_shape o db db' :
  stmt_of o db = Ok db' ->
  db' = db
  \/ (exists r, db' = with_rows r db)
  \/ (exists t p, db' = with_products t db /\ o = Add p).
Proof.
  intros Hs.
  destruct o; cbn [stmt_of] in Hs;
    unfold sql_insert, sql_update, sql_update_qty, sql_delete, prepare in Hs;
    destruct (view db) as [t|]; try done; cbn [rbind] in Hs;
    repeat (match type of Hs with
            | context [bind_product ?p] => destruct (bind_product p)
            | context [bind_int ?z] => destruct (bind_int z)
            | context [rows ?t !! ?i] => destruct (rows t !! i)
            | context [if ?b then _ else _] => destruct b
            end; try done; cbn [rbind] in Hs);
    injection Hs as <-; eauto 10.
Qed.

Lemma stmt_of_keeps_tables o : keeps_tables (stmt_of o).
Proof.
  intros db db' n Hs Hn Hq.
  destruct (stmt_of_shape _ _ _ Hs) as [->|[[r ->]|(t & p & -> & _)]];
    [done | by apply with_rows_other | by apply with_products_other].
Qed.

Lemma stmt_of_keeps_sequence o db db' :
  (forall p, o ≠ Add p) -> stmt_of o db = Ok db' ->
  db' !! "sqlite_sequence" = db !! "sqlite_sequence".
Proof.
  intros Ho Hs.
  destruct (stmt_of_shape _ _ _ Hs) as [->|[[r ->]|(t & p & -> & ->)]];
    [done | by apply with_rows_other | by destruct (Ho p)].
Qed.

Lemma call_file o w db db' :
  files w !! "products.db" = Some db ->
  files (call o w).2 !! "products.db" = Some db' ->
  db' = db \/ stmt_of o db = Ok db'.
Proof.
  intros Hf Hf'. rewrite call_stmt, with_execute, Hf in Hf'.
  cbn [default from_option id] in Hf'.
  destruct (stmt_of o db) as [db1|e] eqn:Hs.
  - destruct (release_file "products.db" (Ok tt) db1 false w)
      as [H|(H & _ & _)];
      rewrite H in Hf'; rewrite ?Hf in Hf'; injection Hf' as <-; auto.
  - rewrite release_done in Hf' by (right; by rewrite Hf).
    cbn [snd files] in Hf'. rewrite lookup_insert_eq in Hf'.
    injection Hf' as <-. auto.
Qed.

(** X6: a mutation never touches a file other than ['products.db'], and
    inside that file never a table other than [products] and SQLite's
    [sqlite_sequence]; of the four only [add_product] writes
    [sqlite_sequence].  This holds whether the call returns or raises. *)
Theorem mutations_frame o w :
  (forall q, q ≠ "products.db" -> files (call o w).2 !! q = files w !! q)
  /\ (forall db db' n,
        n ≠ "products" -> n ≠ "sqlite_sequence" ->
        files w !! "products.db" = Some db ->
        files (call o w).2 !! "products.db" = Some db' ->
        db' !! n = db !! n)
  /\ (forall db db',
        (forall p, o ≠ Add p) ->
        files w !! "products.db" = Some db ->
        files (call o w).2 !! "products.db" = Some db' ->
        db' !! "sqlite_sequence" = db !! "sqlite_sequence").
Proof.
  split; [|split].
  - intros q Hq. rewrite call_stmt, with_execute.
    case_match; by apply release_frame.
  - intros db db' n Hn Hq Hf Hf'.
    destruct (call_file _ _ _ _ Hf Hf') as [->|Hs]; [done|].
    by eapply stmt_of_keeps_tables.
  - intros db db' Ho Hf Hf'.
    destruct (call_file _ _ _ _ Hf Hf') as [->|Hs]; [done|].
    by eapply stmt_of_keeps_sequence.
Qed.

(** X7: a mutation that raises, for whatever reason, leaves the table as
    it was. *)
Theorem failed_mutation_keeps_store o w e :
  (call o w).1 = Raise e -> store (call o w).2 = store w.
Proof.
  rewrite call_stmt, with_execute.
  destruct (stmt_of o _) as [db'|e'] eqn:Hs.
  - unfold release. case_bool_decide; [done|].
    destruct (disk_full w); [|done]. intros _. cbn [snd].
    by rewrite store_written, store_default.
  - intros _. rewrite release_same. cbn [snd].
    by rewrite store_written, store_default.
Qed.

Lemma failed_mutation_keeps_store_witness :
  store (call (Add (Product None (Some "Blue ink pen") (Some (real 20))
                      (Some 100))) fresh_store).2
  = store fresh_store.
Proof.
  apply (failed_mutation_keeps_store
           (Add (Product None (Some "Blue ink pen") (Some (real 20))
                   (Some 100))) fresh_store IntegrityError).
  vm_compute. reflexivity.
Defined.

(** ** update_product *)

Lemma bind_product_bound p :
  qty_fits p = true -> bind_product p = Ok (bound p).
Proof. apply bind_product_ok. Qed.

Lemma update_product_eq i p w db t old :
  files w !! "products.db" = Some db -> view db = Some t ->
  rows t !! i = Some old -> int64 i = true -> qty_fits p = true ->
  update_product i p w
  = if not_null (bound p)
    then release "products.db" (Ok tt)
           (with_rows (<[i := bound p]> (rows t)) db) false w
    else release "products.db" (Raise IntegrityError) db false w.
Proof.
  intros Hf Ht Hold Hi Hq. unfold update_product. rewrite with_execute, Hf.
  cbn [default from_option id]. unfold sql_update, prepare. rewrite Ht.
  cbn [rbind]. rewrite bind_product_bound by done. cbn [rbind].
  rewrite bind_int_ok by done. cbn [rbind]. rewrite Hold.
  by destruct (not_null (bound p)).
Qed.



(** X9: [update_product] on a row that exists, with a record whose name,
    description or cost is [None] (or whose cost is NaN), raises
    [IntegrityError] and leaves the table as it was, whether the disk
    has room or is full. *)
Theorem update_product_null_rejected w t product_id old p :
  store w = Some t -> rows t !! product_id = Some old ->
  int64 product_id = true -> qty_fits p = true ->
  not_null (bound p) = false ->
  (update_product product_id p w).1 = Raise IntegrityError
  /\ store (update_product product_id p w).2 = Some t.
Proof.
  intros Hs Hold Hi Hq Hn. open_store Hs.
  rewrite (update_product_eq _ _ _ _ _ _ Hfile Htable Hold Hi Hq), Hn.
  rewrite (unchanged_done _ _ _ Hfile). cbn [fst snd]. split; [done|].
  unfold store. cbn [files]. by rewrite Hfile.
Qed.

Lemma update_product_null_rejected_witness :
  (update_product 2
     (Product (Some "Pen") None (Some (real 20)) (Some 1)) fresh_store).1
  = Raise IntegrityError
  /\ store (update_product 2
              (Product (Some "Pen") None (Some (real 20)) (Some 1))
              fresh_store).2 = Some seeded.
Proof.
  apply (update_product_null_rejected fresh_store seeded 2
           (Product (Some "Wireless Mouse")
              (Some "A sleek and ergonomic wireless mouse with a long battery life.")
              (Some (real 800)) (Some 20))
           (Product (Some "Pen") None (Some (real 20)) (Some 1)));
    vm_compute; reflexivity.
Defined.

(** ** The set of identifiers *)

Lemma with_execute_rel (R : table -> table -> Prop) stmt w t :
  (forall x, R x x) ->
  (forall db db', view db = Some t -> stmt db = Ok db' ->
     exists t', view db' = Some t' /\ R t t') ->
  store w = Some t ->
  exists t',
    store (get_connection "products.db"
             (fun conn => execute conn stmt) w).2 = Some t'
    /\ R t t'.
Proof.
  intros Hrefl Hstmt Hs. open_store Hs. rewrite with_execute, Hfile.
  cbn [default from_option id].
  assert (forall (r : result unit) db1 t1,
            view db1 = Some t1 -> R t t1 ->
            exists t', store (release "products.db" r db1 false w).2 = Some t'
                       /\ R t t') as Hrel.
  { intros r db1 t1 Ht1 HR. unfold store.
    destruct (release_file "products.db" r db1 false w) as [Hr|[Hr _]];
      rewrite Hr.
    - rewrite Hfile. cbn. eauto.
    - cbn. eauto. }
  destruct (stmt db) as [db'|e] eqn:Hst.
  - destruct (Hstmt _ _ Htable Hst) as (t' & Ht' & HR). eauto.
  - eauto.
Qed.

Lemma dom_insert_present (m : gmap Z product) i x old :
  m !! i = Some old -> dom (<[i := x]> m) = dom m.
Proof.
  intros Hi. rewrite dom_insert_L. apply subseteq_union_1_L.
  apply singleton_subseteq_l, elem_of_dom. eauto.
Qed.

(** X10: [update_product] and [update_qty] never create or remove a row:
    whatever their arguments and whether they return or raise, the table
    afterwards has the same identifiers and the same id sequence. *)
Theorem updates_keep_ids w t product_id p q :
  store w = Some t ->
  (exists t', store (update_product product_id p w).2 = Some t'
              /\ dom (rows t') = dom (rows t)
              /\ sqlite_sequence t' = sqlite_sequence t)
  /\ (exists t', store (update_qty product_id q w).2 = Some t'
                 /\ dom (rows t') = dom (rows t)
                 /\ sqlite_sequence t' = sqlite_sequence t).
Proof.
  intros Hs. split.
  - apply (with_execute_rel same_ids); [done| |done].
    intros db db' Ht. unfold sql_update, prepare. rewrite Ht. cbn [rbind].
    destruct (bind_product p) as [v|]; [|done]. cbn [rbind].
    destruct (bind_int product_id) as [i|]; [|done]. cbn [rbind].
    destruct (rows t !! i) as [old|] eqn:Hi.
    + destruct (not_null v); [|done]. intros [= <-].
      eexists. split; [by apply view_with_rows|].
      split; [|done]. cbn [rows]. by eapply dom_insert_present.
    + intros [= <-]. by exists t.
  - apply (with_execute_rel same_ids); [done| |done].
    intros db db' Ht. unfold sql_update_qty, prepare. rewrite Ht.
    cbn [rbind]. destruct (bind_int q) as [q'|]; [|done]. cbn [rbind].
    destruct (bind_int product_id) as [i|]; [|done]. cbn [rbind].
    intros [= <-]. eexists. split; [by apply view_with_rows|].
    split; [|done]. cbn [rows]. apply dom_alter_L.
Qed.

Lemma updates_keep_ids_witness :
  (exists t',
     store (update_product 2
              (Product (Some "Pen") None (Some (real 20)) (Some 1))
              fresh_store).2 = Some t'
     /\ dom (rows t') = dom (rows seeded)
     /\ sqlite_sequence t' = sqlite_sequence seeded)
  /\ (exists t', store (update_qty 2 (2 ^ 63) fresh_store).2 = Some t'
                 /\ dom (rows t') = dom (rows seeded)
                 /\ sqlite_sequence t' = sqlite_sequence seeded).
Proof.
  apply (updates_keep_ids fresh_store seeded). vm_compute. reflexivity.
Defined.

(** ** add_product *)

Lemma next_rowid_int64 t : last_rowid t < max_rowid -> int64 (next_rowid t) = true.
Proof.
  intros Hlast. pose proof (next_rowid_bounds t) as [_ Hpos].
  unfold int64, next_rowid, min_rowid, max_rowid in *. lia.
Qed.



(** X12: [add_product] with a record whose name, description or cost is
    [None] (or whose cost is NaN) raises [IntegrityError] and leaves the
    table as it was, whether the disk has room or is full. *)
Theorem add_product_null_rejected w t p :
  store w = Some t -> qty_fits p = true -> last_rowid t < max_rowid ->
  not_null (bound p) = false ->
  (add_product p w).1 = Raise IntegrityError
  /\ store (add_product p w).2 = Some t.
Proof.
  intros Hs Hq Hlast Hn. open_store Hs.
  unfold add_product. rewrite with_execute_raise with (e := IntegrityError).
  - cbn [fst snd]. split; [done|]. rewrite store_written, Hfile. done.
  - rewrite Hfile. cbn [default from_option id].
    unfold sql_insert, prepare. rewrite Htable. cbn [rbind].
    rewrite bind_product_bound by done. cbn [rbind].
    rewrite (proj2 (Z.leb_gt _ _)) by done. by rewrite Hn.
Qed.

Lemma add_product_null_rejected_witness :
  (add_product (Product (Some "Pen") (Some "Blue ink pen") (Some S754_nan)
                  (Some 100)) fresh_store).1 = Raise IntegrityError
  /\ store (add_product
              (Product (Some "Pen") (Some "Blue ink pen") (Some S754_nan)
                 (Some 100)) fresh_store).2 = Some seeded.
Proof.
  apply (add_product_null_rejected fresh_store seeded); vm_compute; reflexivity.
Defined.

(** X13: adding a record and deleting it again gives back the former
    rows, but its identifier stays used: the next [add_product] gets the
    identifier after it. *)
Theorem add_then_delete w t p :
  store w = Some t -> disk_full w = false ->
  stored_ok p = true -> last_rowid t < max_rowid ->
  exists w' w'' t'',
    add_product p w = (Ok tt, w')
    /\ delete_product (next_rowid t) w' = (Ok tt, w'')
    /\ store w'' = Some t''
    /\ rows t'' = rows t
    /\ next_rowid t'' = next_rowid t + 1.
Proof.
  intros Hs Hd Hp Hlast. open_store Hs.
  rewrite (add_product_eq _ _ _ _ Hfile Htable Hp Hlast).
  rewrite release_done by by left.
  eexists _, _, _. split; [reflexivity|].
  assert (forall fs l db1 t1,
            view db1 = Some t1 ->
            delete_product (next_rowid t) (World (<["products.db" := db1]> fs) l false)
            = release "products.db" (Ok tt)
                (with_rows (delete (next_rowid t) (rows t1)) db1)
                false (World (<["products.db" := db1]> fs) l false)) as Hdel.
  { intros fs l db1 t1 Ht1. apply delete_product_eq; [|done|].
    - cbn [files]. apply lookup_insert_eq.
    - by apply next_rowid_int64. }
  rewrite Hd, (Hdel _ _ _ _ (with_products_lookup _ _)).
  rewrite release_done by by left. split; [reflexivity|].
  rewrite store_written, (view_with_rows _ _ _ (with_products_lookup _ _)).
  split; [reflexivity|].
  cbn [rows sqlite_sequence]. split.
  - rewrite delete_insert_eq. apply delete_id, next_rowid_fresh.
  - unfold next_rowid at 1, last_rowid at 1. cbn [rows sqlite_sequence].
    rewrite delete_insert_eq, delete_id by apply next_rowid_fresh.
    unfold next_rowid, last_rowid. lia.
Qed.

Lemma add_then_delete_witness :
  exists w' w'' t'',
    add_product (Product (Some "Pen") (Some "Blue ink pen") (Some (real 20))
                   (Some 100)) fresh_store = (Ok tt, w')
    /\ delete_product (next_rowid seeded) w' = (Ok tt, w'')
    /\ store w'' = Some t''
    /\ rows t'' = rows seeded
    /\ next_rowid t'' = next_rowid seeded + 1.
Proof.
  apply (add_then_delete fresh_store seeded); vm_compute; reflexivity.
Defined.

(** ** update_qty twice *)

Lemma update_qty_eq i q w db t :
  files w !! "products.db" = Some db -> view db = Some t ->
  int64 i = true -> int64 q = true ->
  update_qty i q w
  = release "products.db" (Ok tt)
      (with_rows (alter (set_qty q) i (rows t)) db) false w.
Proof.
  intros Hf Ht Hi Hq. unfold update_qty. rewrite with_execute, Hf.
  cbn [default from_option id]. unfold sql_update_qty, prepare. rewrite Ht.
  cbn [rbind]. by rewrite !bind_int_ok.
Qed.

(** X14: of two [update_qty] on the same identifier the last one wins:
    the table is the one the second call alone would have produced. *)
Theorem update_qty_last_wins w t product_id q1 q2 :
  store w = Some t -> disk_full w = false ->
  int64 product_id = true -> int64 q1 = true -> int64 q2 = true ->
  exists t',
    store (update_qty product_id q2 (update_qty product_id q1 w).2).2 = Some t'
    /\ store (update_qty product_id q2 w).2 = Some t'.
Proof.
  intros Hs Hd Hi Hq1 Hq2. open_store Hs.
  rewrite (update_qty_eq _ q1 _ _ _ Hfile Htable Hi Hq1).
  rewrite (update_qty_eq _ q2 _ _ _ Hfile Htable Hi Hq2).
  rewrite !release_done by by left. cbn [snd].
  erewrite update_qty_eq;
    [| cbn [files]; apply lookup_insert_eq
     | apply (view_with_rows _ _ _ Htable) | done | done].
  rewrite release_done by (left; done). cbn [snd].
  rewrite !store_written.
  rewrite (view_with_rows _ _ _ (view_with_rows _ _ _ Htable)).
  rewrite (view_with_rows _ _ _ Htable). cbn [rows sqlite_sequence].
  eexists. split; [|reflexivity]. do 2 f_equal.
  rewrite alter_alter_eq. by apply alter_ext.
Qed.

Lemma update_qty_last_wins_witness :
  exists t',
    store (update_qty 1 7 (update_qty 1 5 fresh_store).2).2 = Some t'
    /\ store (update_qty 1 7 fresh_store).2 = Some t'.
Proof.
  apply (update_qty_last_wins fresh_store seeded 1 5 7); vm_compute; reflexivity.
Defined.

(** ** list_products never lists *)

(** X15: whenever [list_products] returns, it returns the empty list and
    the table has no row; it cannot return a row. *)
Theorem list_products_only_empty w l :
  (list_products w).1 = Ok l ->
  l = [] /\ exists t, store w = Some t /\ rows t = ∅.
Proof.
  rewrite list_products_eq, release_same. cbn [fst].
  destruct (store w) as [t|] eqn:Hs.
  - rewrite <- store_default in Hs.
    destruct (sql_select_all _) as [[|r rs]|e] eqn:Hq; cbn.
    + intros [= <-]. split; [done|]. exists t. split; [done|].
      by apply (select_all_nil _ _ Hs).
    + done.
    + done.
  - unfold sql_select_all. rewrite prepare_store, Hs. done.
Qed.

Lemma list_products_only_empty_witness :
  [] = @nil (gmap string pyobj)
  /\ exists t,
       store (World {["products.db" := {["products" := Rows ∅]}]} [] false)
       = Some t /\ rows t = ∅.
Proof.
  apply (list_products_only_empty
           (World {["products.db" := {["products" := Rows ∅]}]} [] false)).
  vm_compute. reflexivity.
Defined.

(** ** One connection per call *)

Lemma release_conns {A} path (r : result A) db' rf w :
  disk_full w = false ->
  conns (release path r db' rf w).2
  = conns w ++ [Connection path false db' rf].
Proof. intros Hd. by rewrite release_done by by left. Qed.

(** X16: with storage that does not fail, every call of a function of
    the module creates exactly one connection object and leaves it
    closed, whether the call returns or raises; the connection objects
    that existed before are untouched. *)
Theorem one_connection_per_call w :
  disk_full w = false ->
  (forall o, exists c,
      conns (call o w).2 = conns w ++ [c]
      /\ c_open c = false /\ c_path c = "products.db")
  /\ (forall i, exists c,
        conns (get_product i w).2 = conns w ++ [c]
        /\ c_open c = false /\ c_path c = "products.db")
  /\ (exists c,
        conns (list_products w).2 = conns w ++ [c]
        /\ c_open c = false /\ c_path c = "products.db")
  /\ (forall path, exists c,
        conns (connect path w).2 = conns w ++ [c]
        /\ c_open c = false /\ c_path c = path).
Proof.
  intros Hd. repeat split.
  - intros o. rewrite call_stmt, with_execute.
    case_match; rewrite release_conns by done; eauto.
  - intros i. rewrite get_product_eq, release_conns by done. eauto.
  - rewrite list_products_eq, release_conns by done. eauto.
  - intros path. destruct (files w !! path) as [db|] eqn:Hf.
    + rewrite (connect_existing_eq _ _ _ Hf). cbn [snd conns]. eauto.
    + rewrite (connect_fresh_eq _ _ Hf), release_conns by done. eauto.
Qed.

Lemma one_connection_per_call_witness :
  (forall o, exists c,
      conns (call o fresh_store).2 = conns fresh_store ++ [c]
      /\ c_open c = false /\ c_path c = "products.db")
  /\ (forall i, exists c,
        conns (get_product i fresh_store).2 = conns fresh_store ++ [c]
        /\ c_open c = false /\ c_path c = "products.db")
  /\ (exists c,
        conns (list_products fresh_store).2 = conns fresh_store ++ [c]
        /\ c_open c = false /\ c_path c = "products.db")
  /\ (forall path, exists c,
        conns (connect path fresh_store).2 = conns fresh_store ++ [c]
        /\ c_open c = false /\ c_path c = path).
Proof. apply (one_connection_per_call fresh_store). reflexivity. Defined.

(** ** create_tables on a table that exists *)

Lemma max_key_le (m : gmap Z product) b :
  0 <= b -> (forall k p, m !! k = Some p -> k <= b) -> max_key m <= b.
Proof.
  intros Hb. unfold max_key. revert m.
  apply (map_fold_weak_ind
           (fun r m => (forall k p, m !! k = Some p -> k <= b) -> r <= b)).
  - done.
  - intros i x m r Hi IH Hall.
    assert (i <= b) by (apply (Hall i x), lookup_insert_eq).
    assert (r <= b); [|lia]. apply IH. intros k p Hk.
    apply (Hall k p). rewrite lookup_insert_ne; [done|]. congruence.
Qed.

Lemma last_rowid_insert t p :
  last_rowid (Table (<[next_rowid t := p]> (rows t)) (next_rowid t))
  = next_rowid t.
Proof.
  pose proof (next_rowid_bounds t) as [_ Hpos].
  unfold last_rowid at 1. cbn [rows sqlite_sequence].
  apply Z.max_r, max_key_le; [lia|]. intros k x.
  destruct (decide (next_rowid t = k)) as [<-|Hne]; [lia|].
  rewrite lookup_insert_ne by done. intros Hk%max_key_spec.
  unfold next_rowid, last_rowid. lia.
Qed.

Lemma insert_many_appends ps : forall db t,
  Forall (fun p => stored_ok p = true) ps ->
  view db = Some t ->
  last_rowid t + Z.of_nat (length ps) <= max_rowid ->
  exists t' db',
    insert_many ps db = (Ok tt, db')
    /\ view db' = Some t'
    /\ (ps = [] -> db' = db)
    /\ (ps ≠ [] -> db' = with_products t' db)
    /\ last_rowid t' = last_rowid t + Z.of_nat (length ps)
    /\ (forall k x, rows t !! k = Some x -> rows t' !! k = Some x)
    /\ (forall i x, ps !! i = Some x ->
          rows t' !! (last_rowid t + 1 + Z.of_nat i) = Some (bound x))
    /\ size (rows t') = (size (rows t) + length ps)%nat.
Proof.
  induction ps as [|p ps IH]; intros db t Hall Ht Hmax; cbn [insert_many].
  - exists t, db. cbn [length]. repeat split; [done|done|lia|done|done|lia].
  - apply Forall_cons in Hall as [Hp Hall]. cbn [length] in Hmax.
    destruct (stored_ok_bound p Hp) as (Hb & Hn & _).
    unfold sql_insert, prepare. rewrite Ht. cbn [rbind]. rewrite Hb.
    cbn [rbind]. rewrite (proj2 (Z.leb_gt _ _)) by lia. rewrite Hn.
    set (t1 := Table (<[next_rowid t := bound p]> (rows t)) (next_rowid t)).
    assert (last_rowid t1 = last_rowid t + 1) as Hlast
      by apply last_rowid_insert.
    destruct (IH (with_products t1 db) t1 Hall (with_products_lookup _ _))
      as (t' & db' & Hrun & Hv' & Hnil & Hcons & Hl' & Hkeep & Hnew & Hsize);
      [lia|].
    exists t', db'. split; [done|]. split; [done|]. split; [done|].
    pose proof (next_rowid_fresh t) as Hfresh. split.
    { intros _. destruct ps as [|p' ps'].
      - rewrite (Hnil eq_refl) in Hv' |- *.
        rewrite with_products_lookup in Hv'. by injection Hv' as <-.
      - rewrite Hcons by done. apply with_products_again. }
    split; [cbn [length]; lia|]. split; [|split].
    + intros k x Hk. apply Hkeep. subst t1. cbn [rows].
      rewrite lookup_insert_ne; [done|]. congruence.
    + intros [|i] x Hi; cbn in Hi.
      * injection Hi as ->. apply Hkeep. subst t1. cbn [rows].
        replace (last_rowid t + 1 + Z.of_nat 0) with (next_rowid t)
          by (unfold next_rowid; lia).
        apply lookup_insert_eq.
      * replace (last_rowid t + 1 + Z.of_nat (S i))
          with (last_rowid t1 + 1 + Z.of_nat i) by lia.
        by apply Hnew.
    + rewrite Hsize. subst t1. cbn [rows length].
      rewrite map_size_insert_None by done. lia.
Qed.

Lemma products_stored_ok :
  Forall (fun p => stored_ok p = true /\ bound p = p) products.
Proof. refine (bool_decide_unpack _ _). by vm_compute. Qed.

(** X17: [create_tables] on a connection whose database already has a
    [products] table keeps the table and its rows and inserts the twenty
    seed products once more, under the next twenty identifiers: the
    [IF NOT EXISTS] guards the creation of the table, not the seeding.
    The rows are left in the transaction of the connection; no file is
    written. *)
Theorem create_tables_appends l fs d c t :
  c_open c = true -> view (c_db c) = Some t ->
  last_rowid t + 20 <= max_rowid ->
  exists t',
    create_tables (length l) (World fs (l ++ [c]) d)
    = (Ok tt, World fs (l ++ [set_db (with_products t' (c_db c)) c]) d)
    /\ (forall k x, rows t !! k = Some x -> rows t' !! k = Some x)
    /\ (forall i x, products !! i = Some x ->
          rows t' !! (last_rowid t + 1 + Z.of_nat i) = Some x)
    /\ size (rows t') = (size (rows t) + 20)%nat.
Proof.
  intros Hc Ht Hmax.
  assert (Forall (fun p => stored_ok p = true) products) as Hok.
  { eapply Forall_impl; [apply products_stored_ok|]. by intros p [? _]. }
  destruct (insert_many_appends products (c_db c) t Hok Ht)
    as (t' & db' & Hrun & _ & _ & Hdb' & _ & Hkeep & Hnew & Hsize); [done|].
  rewrite Hdb' in Hrun by done.
  exists t'. split; [|split; [done|split; [|done]]].
  - unfold create_tables, bind, execute. rewrite on_conn_last by done.
    unfold sql_create. rewrite (view_rows _ _ Ht). cbn [fst snd].
    rewrite set_db_same.
    unfold insert_initial_data. rewrite executemany_last by done.
    by rewrite Hrun.
  - intros i x Hi. rewrite (Hnew _ _ Hi).
    pose proof products_stored_ok as Hall.
    rewrite Forall_lookup in Hall. by destruct (Hall _ _ Hi) as [_ ->].
Qed.

Lemma create_tables_appends_witness :
  exists t',
    create_tables (length (@nil connection))
      (World ∅ ([] ++ [Connection "products.db" true seeded_db false]) false)
    = (Ok tt,
       World ∅
         ([] ++ [set_db (with_products t'
                           (c_db (Connection "products.db" true seeded_db false)))
                        (Connection "products.db" true seeded_db false)])
         false)
    /\ (forall k x, rows seeded !! k = Some x -> rows t' !! k = Some x)
    /\ (forall i x, products !! i = Some x ->
          rows t' !! (last_rowid seeded + 1 + Z.of_nat i) = Some x)
    /\ size (rows t') = (size (rows seeded) + 20)%nat.
Proof.
  apply (create_tables_appends [] ∅ false
           (Connection "products.db" true seeded_db false) seeded);
    vm_compute; try reflexivity. discriminate.
Defined.

(** ** Identifiers along a run *)

(** X18: in every state reached from a freshly initialised store by a
    run of mutations, the table exists, every identifier in it is
    positive and at most the id sequence, and the id sequence is at least
    that of the state the run started from. *)
Theorem ids_bounded_by_sequence w0 ops1 ops2 :
  files w0 !! "products.db" = None -> disk_full w0 = false ->
  exists t1 t2,
    store (run_ops (initialize w0) ops1) = Some t1
    /\ store (run_ops (run_ops (initialize w0) ops1) ops2) = Some t2
    /\ 20 <= sqlite_sequence t1 <= sqlite_sequence t2
    /\ (forall k x, rows t2 !! k = Some x -> 0 < k <= sqlite_sequence t2).
Proof.
  intros Hf Hd. destruct (initialize_store w0 Hf Hd) as [Hs0 _].
  destruct (run_ops_store ops1 _ _ Hs0) as (t1 & Hs1 & [Hseq1 Hinv1] & _).
  destruct (run_ops_store ops2 _ _ Hs1) as (t2 & Hs2 & [Hseq2 Hinv2] & _).
  exists t1, t2. split; [done|]. split; [done|].
  split; [cbn [seeded sqlite_sequence] in Hseq1; lia|].
  intros k x Hk. by apply (Hinv2 (Hinv1 seeded_inv)) in Hk as [? _].
Qed.

Lemma ids_bounded_by_sequence_witness :
  exists t1 t2,
    store (run_ops (initialize (World ∅ [] false)) [Delete 20]) = Some t1
    /\ store (run_ops (run_ops (initialize (World ∅ [] false)) [Delete 20])
                [Add (Product (Some "Pen") (Some "Blue ink pen")
                        (Some (real 20)) (Some 100))]) = Some t2
    /\ 20 <= sqlite_sequence t1 <= sqlite_sequence t2
    /\ (forall k x, rows t2 !! k = Some x -> 0 < k <= sqlite_sequence t2).
Proof.
  apply (ids_bounded_by_sequence (World ∅ [] false)); reflexivity.
Defined.

(** ** The path of the store *)

(** X19: the functions that work on the table use ['products.db']
    whatever path [connect] was given: after [connect] on another path,
    with no file at ['products.db'], every one of them still raises
    [OperationalError]. *)
Theorem connect_other_path path w :
  path ≠ "products.db" -> files w !! "products.db" = None ->
  (forall o, (call o (connect path w).2).1 = Raise OperationalError)
  /\ (forall i, (get_product i (connect path w).2).1 = Raise OperationalError)
  /\ (list_products (connect path w).2).1 = Raise OperationalError.
Proof.
  intros Hp Hf.
  assert (files (connect path w).2 !! "products.db" = None) as Hf'
    by (rewrite connect_frame; done).
  split; [|split].
  - intros o. destruct (call_eq o (connect path w).2) as (stmt & -> & Hstmt).
    rewrite with_execute_raise with (e := OperationalError); [done|].
    apply Hstmt. by rewrite Hf'.
  - intros i. rewrite get_product_result. unfold store. by rewrite Hf'.
  - rewrite list_products_eq, release_same, Hf'. done.
Qed.

Lemma connect_other_path_witness :
  (forall o, (call o (connect "catalog.db" (World ∅ [] false)).2).1
             = Raise OperationalError)
  /\ (forall i, (get_product i (connect "catalog.db" (World ∅ [] false)).2).1
                = Raise OperationalError)
  /\ (list_products (connect "catalog.db" (World ∅ [] false)).2).1
     = Raise OperationalError.
Proof.
  apply (connect_other_path "catalog.db" (World ∅ [] false));
    [discriminate | reflexivity].
Defined.
